(** * denoflare: tail web worker, config loader and remote KV namespace

    A shallow embedding of three source files of the repository:

    - [src/tailweb/tailweb_worker.ts]  the request handler of the tail web UI,
    - [src/cli/config_loader.ts]       config loading, profile and binding
                                       resolution,
    - the [ApiKVNamespace] class       a KV namespace backed by the HTTP API.

    Asynchronous functions are embedded as programs in a small free monad
    [Prog]: a program returns, throws, or calls the outside world (HTTP,
    environment, file system) and continues with the answer.  An [await]ed
    call that rejects is an answer [Err e] of the call.  A [World] gives the
    answer of every call; [run] runs a program in a world.  Console output
    is not modelled.

    Functions of the repository and of the platform that the three files
    import but that are not among the sources are parameters, collected in
    the classes [WorkerDeps], [CliDeps] and [KVDeps].

    Strings are sequences of 8-bit code units (the Latin-1 range of
    JavaScript's UTF-16 code units). *)

From Stdlib Require Import String Ascii List NArith Lia DecimalString Bool.
From stdpp Require Import base option list strings gmap fin_maps.

Set Default Proof Using "Type".

(* ===================================================================== *)
(** * Part I: definitions                                                 *)
(* ===================================================================== *)

(** ** JavaScript string built-ins used by the sources *)

Module JsString.

(** [strip_prefix p s] is [Some r] exactly when [s = p +:+ r]. *)
Fixpoint strip_prefix (p s : string) : option string :=
  match p with
  | EmptyString => Some s
  | String c p' =>
      match s with
      | EmptyString => None
      | String d s' => if Ascii.eqb c d then strip_prefix p' s' else None
      end
  end.

(** [s.startsWith(p)] *)
Definition startsWith (s p : string) : bool :=
  match strip_prefix p s with Some _ => true | None => false end.

(** [s.endsWith(p)] *)
Fixpoint endsWith (s p : string) : bool :=
  String.eqb s p ||
  match s with
  | EmptyString => false
  | String _ s' => endsWith s' p
  end.

(** [s.substring(n)] *)
Fixpoint substring_from (n : nat) (s : string) : string :=
  match n, s with
  | O, _ => s
  | S n', String _ s' => substring_from n' s'
  | S _, EmptyString => EmptyString
  end.

(** The text before and after the first occurrence of [pat] in [s]. *)
Fixpoint cut (pat s : string) : option (string * string) :=
  match strip_prefix pat s with
  | Some rest => Some (EmptyString, rest)
  | None =>
      match s with
      | EmptyString => None
      | String c s' =>
          match cut pat s' with
          | Some (before, after) => Some (String c before, after)
          | None => None
          end
      end
  end.

(** [s.includes(pat)] *)
Definition includes (s pat : string) : bool :=
  match cut pat s with Some _ => true | None => false end.

(** [s.indexOf(pat)], with [None] for JavaScript's [-1]. *)
Definition indexOf (s pat : string) : option nat :=
  match cut pat s with
  | Some (before, _) => Some (String.length before)
  | None => None
  end.

(** The replacement text of [String.prototype.replace] for a string
    pattern (ECMAScript GetSubstitution without captures): [$$] is a
    dollar sign, [$&] the matched text, [$`] the text before the match,
    [$'] the text after it; every other character stands for itself. *)
Fixpoint GetSubstitution (matched before after template : string) : string :=
  match template with
  | EmptyString => EmptyString
  | String c rest =>
      if Ascii.eqb c "$" then
        match rest with
        | String d rest' =>
            if Ascii.eqb d "$" then
              String "$" (GetSubstitution matched before after rest')
            else if Ascii.eqb d "&" then
              matched +:+ GetSubstitution matched before after rest'
            else if Ascii.eqb d "`" then
              before +:+ GetSubstitution matched before after rest'
            else if Ascii.eqb d "'" then
              after +:+ GetSubstitution matched before after rest'
            else String c (GetSubstitution matched before after rest)
        | EmptyString => String c EmptyString
        end
      else String c (GetSubstitution matched before after rest)
  end.

(** [s.replace(pat, repl)] with a string pattern: only the first
    occurrence is replaced. *)
Definition replace (s pat repl : string) : string :=
  match cut pat s with
  | Some (before, after) =>
      before +:+ GetSubstitution pat before after repl +:+ after
  | None => s
  end.

(** White space and line terminators of ECMAScript below U+0100. *)
Definition isWhiteSpace (c : ascii) : bool :=
  match N_of_ascii c with
  | 9%N | 10%N | 11%N | 12%N | 13%N | 32%N | 160%N => true
  | _ => false
  end.

Fixpoint trimStart (s : string) : string :=
  match s with
  | EmptyString => EmptyString
  | String c s' => if isWhiteSpace c then trimStart s' else s
  end.

Fixpoint trimEnd (s : string) : string :=
  match s with
  | EmptyString => EmptyString
  | String c s' =>
      match trimEnd s' with
      | EmptyString => if isWhiteSpace c then EmptyString else String c EmptyString
      | t => String c t
      end
  end.

(** [s.trim()] *)
Definition trim (s : string) : string := trimEnd (trimStart s).

(** [s.split(c)] for a separator of one character. *)
Fixpoint split (sep : ascii) (s : string) : list string :=
  match s with
  | EmptyString => [EmptyString]
  | String c s' =>
      match split sep s' with
      | piece :: pieces =>
          if Ascii.eqb c sep then EmptyString :: piece :: pieces
          else String c piece :: pieces
      | [] => [String c EmptyString]
      end
  end.

(** [pieces.join(sep)] *)
Definition join (sep : string) (pieces : list string) : string :=
  String.concat sep pieces.

(** [n.toString()] for a number that is a natural number. *)
Definition ofNumber (n : N) : string :=
  NilEmpty.string_of_uint (N.to_uint n).

(** A string is truthy when it is not empty. *)
Definition truthy (s : string) : bool :=
  match s with EmptyString => false | String _ _ => true end.

(** [a || b] on strings. *)
Definition or_else (a b : string) : string := if truthy a then a else b.

End JsString.


(** ** Values, exceptions, and programs that call the outside world *)

(** A value of type [unknown]: what a command-line option can hold. *)
Inductive JsValue : Type :=
| JsStr (s : string)
| JsNum (n : N)
| JsBool (b : bool)
| JsNull.

(** [!!v] *)
Definition JsValue_truthy (v : option JsValue) : bool :=
  match v with
  | None => false
  | Some (JsStr s) => JsString.truthy s
  | Some (JsNum n) => negb (N.eqb n 0)
  | Some (JsBool b) => b
  | Some JsNull => false
  end.

(** The template-literal rendering [`${v}`] of an [unknown]. *)
Definition JsValue_toString (v : option JsValue) : string :=
  match v with
  | None => "undefined"
  | Some (JsStr s) => s
  | Some (JsNum n) => JsString.ofNumber n
  | Some (JsBool true) => "true"
  | Some (JsBool false) => "false"
  | Some JsNull => "null"
  end.

(** [Response] and the init object of the global [fetch]. *)
Record Response : Type := mkResponse {
  resp_status : N;
  resp_headers : list (string * string);
  resp_body : string;
}.

Record RequestInit : Type := mkRequestInit {
  init_method : string;
  init_headers : list (string * string);
  init_body : option string;
}.

(** What JavaScript code can throw here. *)
Inductive Exn : Type :=
| Error (message : string)                    (* new Error(message) *)
| ErrorCause (message : string) (cause : Exn) (* new Error(message, { cause }) *)
| PermissionDenied (message : string)         (* Deno.errors.PermissionDenied *)
| Foreign (name message : string)             (* any other error of the platform *)
| ThrownResponse (r : Response).              (* throw new Response(...) *)

(** [e.message || e] and [e.stack || e], as text. *)
Definition Exn_message (e : Exn) : string :=
  match e with
  | Error m | ErrorCause m _ => JsString.or_else m "Error"
  | PermissionDenied m => JsString.or_else m "PermissionDenied"
  | Foreign name m => JsString.or_else m name
  | ThrownResponse _ => "[object Response]"
  end.

Inductive Result (A : Type) : Type :=
| Ok (a : A)
| Err (e : Exn).
Arguments Ok {A} a.
Arguments Err {A} e.

(** A directory, as its path segments from the innermost one to the root. *)
Definition Dir : Type := list string.

(** The string of a path, with [/] between the segments. *)
Fixpoint Dir_toString (d : Dir) : string :=
  match d with
  | [] => ""
  | seg :: parent => Dir_toString parent +:+ "/" +:+ seg
  end.

(** [join(dir, name)] and [resolve(dir, '..')] of the path library. *)
Definition join (dir : Dir) (name : string) : Dir := name :: dir.
Definition resolve_parent (dir : Dir) : Dir := tail dir.

Record Account : Type := mkAccount {
  account_id : string;
  account_name : string;
}.

Definition Bytes : Type := list Byte.byte.

(** The arguments of [getKeyValue] and [getKeyMetadata]. *)
Record KeyRef : Type := mkKeyRef {
  ref_accountId : string;
  ref_namespaceId : string;
  ref_key : string;
  ref_apiToken : string;
}.

(** The calls a program makes to the outside world, indexed by the type of
    the answer. *)
Inductive Event : Type -> Type :=
| HttpFetch (url : string) (init : option RequestInit) : Event Response
| EnvGet (name : string) : Event (option string)          (* Deno.env.get *)
| Cwd : Event Dir                                         (* Deno.cwd *)
| FileExists (path : string) : Event bool                 (* fs_util.ts *)
| ReadTextFile (path : string) : Event string             (* Deno.readTextFile *)
| ListAccounts (apiToken : string) : Event (list Account) (* cloudflare_api.ts *)
| GetKeyValue (ref : KeyRef) : Event (option Bytes)       (* cloudflare_api.ts *)
| GetKeyMetadata (ref : KeyRef) : Event (option (gmap string string)).

Inductive Prog (R : Type) : Type :=
| Ret (r : R)
| Throw (e : Exn)
| Call (A : Type) (ev : Event A) (k : Result A -> Prog R).
Arguments Ret {R} r.
Arguments Throw {R} e.
Arguments Call {R A} ev k.

Fixpoint bind {A B : Type} (p : Prog A) (f : A -> Prog B) : Prog B :=
  match p with
  | Ret a => f a
  | Throw e => Throw e
  | Call ev k => Call ev (fun r => bind (k r) f)
  end.

(** [await] of a call: its value, or its exception rethrown. *)
Definition resume {A : Type} (r : Result A) : Prog A :=
  match r with
  | Ok a => Ret a
  | Err e => Throw e
  end.

Definition call {A : Type} (ev : Event A) : Prog A := Call ev resume.

(** A function that may throw, used inside a program. *)
Definition lift {A : Type} (r : Result A) : Prog A := resume r.

(** [try { p } catch (e) { handler e }] *)
Fixpoint try_catch {A : Type} (p : Prog A) (handler : Exn -> Prog A) : Prog A :=
  match p with
  | Ret a => Ret a
  | Throw e => handler e
  | Call ev k => Call ev (fun r => try_catch (k r) handler)
  end.

(** [x ← p; q] sequences two programs. *)
#[global] Instance Prog_ret : MRet Prog := fun _ a => Ret a.
#[global] Instance Prog_bind : MBind Prog := fun _ _ f p => bind p f.

(** The outside world answers every call. *)
Definition World : Type := forall A : Type, Event A -> Result A.

(** Running a program in a world. *)
Fixpoint run {R : Type} (w : World) (p : Prog R) : Result R :=
  match p with
  | Ret r => Ok r
  | Throw e => Err e
  | Call ev k => run w (k (w _ ev))
  end.

(** The program, run in [w], reads the environment variable [name]. *)
Fixpoint consults {R : Type} (w : World) (name : string) (p : Prog R) : Prop :=
  match p with
  | Call ev k =>
      match ev with
      | EnvGet n => n = name
      | _ => False
      end
      \/ consults w name (k (w _ ev))
  | _ => False
  end.

(* --------------------------------------------------------------------- *)
(** ** src/tailweb/tailweb_worker.ts                                      *)
(* --------------------------------------------------------------------- *)

(** The fields of a parsed [URL] the handler reads. *)
Record URL : Type := mkURL {
  url_href : string;
  url_origin : string;
  url_pathname : string;
}.

(** An incoming request; [req_headers] is the list of [name, value] pairs
    that iterating [request.headers] yields. *)
Record Request : Type := mkRequest {
  req_method : string;
  req_url : string;
  req_headers : list (string * string);
}.

(** [headers.get(name)], with [None] for [null]. *)
Definition Headers_get (headers : list (string * string)) (name : string)
  : option string :=
  snd <$> List.find (fun v => String.eqb (fst v) name) headers.

(** What the worker takes from the platform and from files of the repository
    that are not part of the sources: the URL parser [new URL(s)], which
    throws on a string that is no URL, and the constant [TAILWEB_APP_DATA]
    of [tailweb_data.ts].  The markup of the page of [computeHtml] is not
    reproduced: [PAGE] holds its four fixed pieces, the text before, between
    and after the three places where [url.origin] is inserted. *)
Class WorkerDeps : Type := {
  new_URL : string -> Result URL;
  TAILWEB_APP_DATA : string;
  PAGE : string * string * string * string;
}.

Module TailwebWorker.
Section Worker.
Context `{WorkerDeps}.

Definition computeHtml (url : URL) : string :=
  let '(head, image, link, rest) := PAGE in
  head +:+ url_origin url +:+ image +:+ url_origin url +:+ link
       +:+ url_origin url +:+ rest.

(** [new Response(body, { headers })] and [new Response(body, { status })] *)
Definition Response_ok (headers : list (string * string)) (body : string) : Response :=
  mkResponse 200 headers body.

Definition fetch (request : Request) : Prog Response :=
  let cfConnectingIp := Headers_get (req_headers request) "cf-connecting-ip" in
  url ← lift (new_URL (req_url request));
  if String.eqb (url_pathname url) "/" then
    mret (Response_ok [("Content-Type", "text/html; charset=utf-8")] (computeHtml url))
  else if String.eqb (url_pathname url) "/app.js" then
    response ← call (HttpFetch TAILWEB_APP_DATA None);
    mret (Response_ok [("Content-Type", "text/javascript; charset=utf-8")]
                      (resp_body response))
  else if JsString.startsWith (url_pathname url) "/fetch/" then
    let fetchUrlStr :=
      "https://" +:+ JsString.substring_from (String.length "/fetch/") (url_pathname url) in
    fetchUrl ← lift (new_URL fetchUrlStr);
    if String.eqb (url_origin fetchUrl) "https://api.cloudflare.com" then
      let method := req_method request in
      let headers :=
        List.filter (fun v => negb (JsString.startsWith (fst v) "cf-"))
                    (req_headers request) in
      let body := None in
      call (HttpFetch fetchUrlStr (Some (mkRequestInit method headers body)))
    else
      Throw (ThrownResponse
               (mkResponse 400 [] ("Unable to fetch " +:+ url_href fetchUrl)))
  else
    mret (Response_ok [] ("hello " +:+ default "null" cfConnectingIp)).

End Worker.
End TailwebWorker.

(* --------------------------------------------------------------------- *)
(** ** src/cli/config_loader.ts                                           *)
(* --------------------------------------------------------------------- *)

(** The records of [common/config.ts], with the fields the loader reads. *)
Record Profile : Type := mkProfile {
  profile_accountId : string;
  profile_apiToken : string;
  profile_default : option bool;
}.

Record Script : Type := mkScript {
  script_path : string;
  script_profile : option string;
}.

Record Config : Type := mkConfig {
  config_scripts : option (gmap string Script);
  config_profiles : option (gmap string Profile);
}.

Inductive Binding : Type :=
| TextBinding (value : string)
| SecretBinding (secret : string)
| OtherBinding (kind payload : string).

Record AwsCredentials : Type := mkAwsCredentials {
  accessKeyId : string;
  secretAccessKey : string;
}.

(** [v.default] as a condition. *)
Definition is_default (v : Profile) : bool :=
  match profile_default v with Some true => true | _ => false end.

(** What the loader takes from files of the repository that are not part of
    the sources and from the platform: [parseOptionalStringOption] of
    [cli_common.ts], [isValidProfileName] and [checkConfig] of
    [config_validation.ts], [parseJsonc] and [formatParseError] of
    [jsonc.ts], [JSON.stringify] on a list of accounts, and the first capture
    group of the first match of a regular expression ([None]: no match). *)
Class CliDeps : Type := {
  JsonValue : Type;
  ParseError : Type;
  parseOptionalStringOption : string -> gmap string JsValue -> Result (option string);
  isValidProfileName : string -> bool;
  parseJsonc : string -> JsonValue * list ParseError;
  formatParseError : ParseError -> string -> string;
  checkConfig : JsonValue -> Result Config;
  JSON_stringify_accounts : list Account -> string;
  RegExp_match1 : string -> option string -> string -> Result (option string);
}.

Module ConfigLoader.
Section Loader.
Context `{CliDeps}.

Definition CONFIG_FILE_NAME : string := ".denoflare".

(** [config.profiles || {}] *)
Definition profiles_of (config : Config) : gmap string Profile :=
  default ∅ (config_profiles config).

(** The [catch] clause of [loadConfig] and of [findConfigFilePath]: a
    permission-denied error ends the attempt with [fallback], every other
    error is thrown again. *)
Definition unless_denied {A : Type} (fallback : A) (e : Exn) : Prog A :=
  match e with
  | PermissionDenied _ => mret fallback
  | _ => Throw e
  end.

Definition loadConfigFromFile (path : string) : Prog Config :=
  try_catch
    (jsonc ← call (ReadTextFile path);
     let '(config, errors) := parseJsonc jsonc in
     if Nat.ltb 0 (length errors) then
       Throw (Error ("Invalid json, error"
                     +:+ (if Nat.ltb 1 (length errors) then "s" else "")
                     +:+ "="
                     +:+ JsString.join " "
                           (map (fun v => "(" +:+ formatParseError v jsonc +:+ ")")
                                errors)))
     else lift (checkConfig config))
    (fun e => Throw (Error ("Error loading config (path=" +:+ path +:+ "): "
                            +:+ Exn_message e))).

(** The loop of [findConfigFilePath].  [resolve(dir, '..')] is [dir]
    itself exactly at the root, where the walk ends. *)
Fixpoint findConfigFilePath_walk (dir : Dir) : Prog (option string) :=
  let filePath := Dir_toString (join dir CONFIG_FILE_NAME) in
  found ← call (FileExists filePath);
  if found : bool then mret (Some filePath)
  else
    match dir with
    | [] => mret None
    | _ :: parentDir => findConfigFilePath_walk parentDir
    end.

Definition findConfigFilePath (verbose : bool) : Prog (option string) :=
  try_catch
    (dir ← call Cwd;
     findConfigFilePath_walk dir)
    (unless_denied None).

(** Lines 21 to 25 of [loadConfig]: the config as loaded, before the
    environment is looked at. *)
Definition loadedConfig (options : gmap string JsValue) : Prog Config :=
  let verbose := JsValue_truthy (options !! "verbose") in
  let optionConfigFilePath :=
    match options !! "config" with
    | Some (JsStr s) =>
        if Nat.ltb 0 (String.length (JsString.trim s))
        then Some (JsString.trim s) else None
    | _ => None
    end in
  configFilePath ←
    match optionConfigFilePath with
    | Some p => mret (Some p)
    | None => findConfigFilePath verbose
    end;
  match configFilePath with
  | Some p =>
      if JsString.truthy p then loadConfigFromFile p
      else mret (mkConfig None None)
  | None => mret (mkConfig None None)
  end.

(** Lines 27 to 47 of [loadConfig]. *)
Definition enhanceWithEnv (config : Config) : Prog Config :=
  if Nat.eqb (size (profiles_of config)) 0 then
    try_catch
      (a ← call (EnvGet "CF_ACCOUNT_ID");
       let cfAccountId := JsString.trim (JsString.or_else (default "" a) "") in
       t ← call (EnvGet "CF_API_TOKEN");
       let cfApiToken := JsString.trim (JsString.or_else (default "" t) "") in
       if Nat.ltb 0 (String.length cfAccountId) && Nat.ltb 0 (String.length cfApiToken)
       then
         let envProfile := mkProfile cfAccountId cfApiToken None in
         mret (mkConfig (config_scripts config) (Some {[ "env" := envProfile ]}))
       else mret config)
      (unless_denied config)
  else mret config.

Definition loadConfig (options : gmap string JsValue) : Prog Config :=
  config ← loadedConfig options;
  enhanceWithEnv config.

(** The profile name of a secret of the form [aws:<profile>]: the match
    of [/^aws:(.*?)$/], whose dot matches no line terminator. *)
Definition isLineTerminator (c : ascii) : bool :=
  match N_of_ascii c with
  | 10%N | 13%N => true
  | _ => false
  end.

Definition aws_profile (secret : string) : option string :=
  match JsString.strip_prefix "aws:" secret with
  | Some name =>
      if existsb isLineTerminator (list_ascii_of_string name) then None
      else Some name
  | None => None
  end.

(** One turn of the loop over the lines of the credentials file. *)
Definition credentials_line (profileLine : string)
    (state : bool * gmap string string) (line : string)
  : bool * gmap string string :=
  let '(inProfile, atts) := state in
  if JsString.startsWith line "[" && JsString.endsWith line "]" then
    (String.eqb line profileLine, atts)
  else if inProfile then
    match JsString.cut "=" line with
    | Some (before, after) =>
        let name := JsString.trim before in
        let value := JsString.trim after in
        (inProfile, <[ name := value ]> atts)
    | None => (inProfile, atts)
    end
  else (inProfile, atts).

Definition loadAwsCredentialsForProfile (profile : string) : Prog AwsCredentials :=
  home ← call (EnvGet "HOME");
  txt ← call (ReadTextFile (default "undefined" home +:+ "/.aws/credentials"));
  let profileLine := "[" +:+ profile +:+ "]" in
  let '(_, atts) :=
    fold_left (credentials_line profileLine) (JsString.split "010" txt) (false, ∅) in
  match atts !! "aws_access_key_id", atts !! "aws_secret_access_key" with
  | Some accessKeyId, Some secretAccessKey =>
      mret (mkAwsCredentials accessKeyId secretAccessKey)
  | _, _ => Throw (Error ("No aws credentials found for profile " +:+ profile))
  end.

Definition LOCAL_PORT : string := "${localPort}".
Definition PUSH_ID : string := "${pushId}".

Definition resolveBinding (binding : Binding) (localPort : option N)
    (pushId : option string) : Prog Binding :=
  match binding with
  | SecretBinding secret =>
      match aws_profile secret with
      | Some m1 =>
          creds ← loadAwsCredentialsForProfile m1;
          mret (SecretBinding (accessKeyId creds +:+ ":" +:+ secretAccessKey creds))
      | None => mret binding
      end
  | TextBinding binding_value =>
      let value := binding_value in
      value ←
        match localPort with
        | None =>
            if JsString.includes binding_value LOCAL_PORT
            then Throw (Error "Cannot resolve: localPort")
            else mret value
        | Some port =>
            mret (JsString.replace value LOCAL_PORT (JsString.ofNumber port))
        end;
      value ←
        match pushId with
        | None =>
            if JsString.includes value PUSH_ID
            then Throw (Error "Cannot resolve: pushId")
            else mret value
        | Some id => mret (JsString.replace value PUSH_ID id)
        end;
      mret (TextBinding value)
  | OtherBinding _ _ => mret binding
  end.

(** The loop of [resolveBindings] over [Object.entries(bindings)], given
    as the list of entries. *)
Fixpoint resolveBindings_entries (entries : list (string * Binding))
    (localPort : option N) (pushId : option string) (rt : gmap string Binding)
  : Prog (gmap string Binding) :=
  match entries with
  | [] => mret rt
  | (name, binding) :: rest =>
      resolved ← resolveBinding binding localPort pushId;
      resolveBindings_entries rest localPort pushId (<[ name := resolved ]> rt)
  end.

Definition resolveBindings (bindings : gmap string Binding)
    (localPort : option N) (pushId : option string) : Prog (gmap string Binding) :=
  resolveBindings_entries (map_to_list bindings) localPort pushId ∅.

(** The [try] block of [findProfile] that asks the API for the account
    of a token. *)
Definition locateAccount (apiToken : string) : Prog (option Profile) :=
  try_catch
    (listed ← call (ListAccounts apiToken);
     let accounts := map (fun v => mkAccount (account_id v) (account_name v)) listed in
     if Nat.eqb (length accounts) 0 then
       Throw (Error "Unable to locate account-id for that api-token")
     else if Nat.ltb 1 (length accounts) then
       Throw (Error ("Found multiple accounts for that api-token, try again with an explicit --account-id. Accounts: "
                     +:+ JSON_stringify_accounts accounts))
     else
       match accounts !! 0%nat with
       | Some first => mret (Some (mkProfile (account_id first) apiToken None))
       | None => Throw (Foreign "TypeError" "Cannot read properties of undefined")
       end)
    (fun e => Throw (ErrorCause "Failed locating account-id from api-token" e)).

Definition findProfile (config : Config) (options : gmap string JsValue)
    (script : option Script) : Prog (option Profile) :=
  accountId ← lift (parseOptionalStringOption "account-id" options);
  apiToken ← lift (parseOptionalStringOption "api-token" options);
  match apiToken with
  | Some (String _ _ as apiToken) =>
      match accountId with
      | Some (String _ _ as accountId) =>
          mret (Some (mkProfile accountId apiToken None))
      | _ => locateAccount apiToken
      end
  | _ =>
      let profiles := profiles_of config in
      match options !! "profile" with
      | Some optionProfileName =>
          match optionProfileName with
          | JsStr name =>
              if negb (isValidProfileName name) then
                Throw (Error ("Bad profile name: " +:+ name))
              else
                match profiles !! name with
                | Some optionProfile => mret (Some optionProfile)
                | None => Throw (Error ("Unable to find profile " +:+ name +:+ " in config"))
                end
          | _ =>
              Throw (Error ("Bad profile name: "
                            +:+ JsValue_toString (Some optionProfileName)))
          end
      | None =>
          match script ≫= script_profile with
          | Some (String _ _ as name) =>
              if negb (isValidProfileName name) then
                Throw (Error ("Bad profile name: " +:+ name))
              else
                match profiles !! name with
                | Some scriptProfile => mret (Some scriptProfile)
                | None => Throw (Error "Unable to find profile undefined in config")
                end
          | _ =>
              let profilesArr := (map_to_list profiles).*2 in
              if Nat.eqb (length profilesArr) 0 then mret None
              else
                let defaultProfiles := List.filter is_default profilesArr in
                match defaultProfiles, profilesArr with
                | [v], _ => mret (Some v)
                | _, [v] => mret (Some v)
                | _, _ =>
                    Throw (Error ("Unable to find profile, "
                                  +:+ JsString.ofNumber (N.of_nat (length profilesArr))
                                  +:+ " profiles in config, and "
                                  +:+ JsString.ofNumber (N.of_nat (length defaultProfiles))
                                  +:+ " marked as default"))
                end
          end
      end
  end.

Definition resolveString (text : string) : Prog string :=
  match JsString.strip_prefix "regex:" text with
  | Some str =>
      match JsString.cut ":" str with
      | Some (path, pattern) =>
          txt ← call (ReadTextFile path);
          let '(pattern, flags) :=
            match JsString.strip_prefix "(?s)" pattern with
            | Some rest => (rest, Some "s")
            | None => (pattern, None)
            end in
          m ← lift (RegExp_match1 pattern flags txt);
          match m with
          | Some m1 => mret m1
          | None => Throw (Error ("resolveString: Failed to resolve " +:+ text))
          end
      | None => mret text
      end
  | None => mret text
  end.

Definition resolveProfileComponents (profile : Profile) : Prog Profile :=
  accountId ← resolveString (profile_accountId profile);
  apiToken ← resolveString (profile_apiToken profile);
  mret (mkProfile accountId apiToken None).

Definition resolveProfile (config : Config) (options : gmap string JsValue)
    (script : option Script) : Prog Profile :=
  profile ← findProfile config options script;
  match profile with
  | None => Throw (Error "Unable to find profile, no profiles in config")
  | Some profile => resolveProfileComponents profile
  end.

Definition resolveProfileOpt (config : Config) (options : gmap string JsValue)
    (script : option Script) : Prog (option Profile) :=
  profile ← findProfile config options script;
  match profile with
  | None => mret None
  | Some profile =>
      resolved ← resolveProfileComponents profile;
      mret (Some resolved)
  end.

End Loader.
End ConfigLoader.

(* --------------------------------------------------------------------- *)
(** ** class ApiKVNamespace                                               *)
(* --------------------------------------------------------------------- *)

(** The option records of [cloudflare_workers_types.d.ts]. *)
Record KVGetOptions : Type := mkKVGetOptions {
  opts_type : option string;
  opts_cacheTtl : option N;
}.

Record KVPutOptions : Type := mkKVPutOptions {
  put_expiration : option N;
  put_expirationTtl : option N;
  put_metadata : option (gmap string string);
}.

Record KVListOptions : Type := mkKVListOptions {
  list_prefix : option string;
  list_limit : option N;
  list_cursor : option string;
}.

Record KVListResult : Type := mkKVListResult {
  list_keys : list string;
  list_complete : bool;
  list_next : option string;
}.

(** [string | ReadableStream | ArrayBuffer] *)
Inductive KVPutValue : Type :=
| PutString (s : string)
| PutStream (chunks : list Bytes)
| PutArrayBuffer (buffer : Bytes).

(** What the class takes from elsewhere: [new Bytes(bytes).utf8()] of
    [common/bytes.ts], [JSON.parse], which throws on a text that is no
    JSON, and the text of [JSON.stringify(opts)] inside a template. *)
Class KVDeps : Type := {
  Json : Type;
  Bytes_utf8 : Bytes -> string;
  JSON_parse : string -> Result Json;
  JSON_stringify_opts : option KVGetOptions -> string;
}.

Module ApiKVNamespace.
Section Namespace.
Context `{KVDeps}.

Record t : Type := new {
  accountId : string;
  apiToken : string;
  namespaceId : string;
}.

(** What [get] resolves to besides [null]. *)
Inductive Value : Type :=
| ArrayBuffer (buffer : Bytes)
| JsonObject (value : Json).

(** [KVValueAndMetadata]; [metadata] is [None] for [null]. *)
Record ValueAndMetadata : Type := mkValueAndMetadata {
  value : Value;
  metadata : option (gmap string string);
}.

Definition ofProfile (profile : option Profile) (kvNamespace : string) : Result t :=
  match profile with
  | None =>
      Err (Error "Cannot use a kvNamespace binding without configuring a profile to use for its credentials")
  | Some profile =>
      Ok (new (profile_accountId profile) (profile_apiToken profile) kvNamespace)
  end.

(** [opts && opts.type === name] *)
Definition type_is (opts : option KVGetOptions) (name : string) : bool :=
  match opts with
  | Some o =>
      match opts_type o with
      | Some ty => String.eqb ty name
      | None => false
      end
  | None => false
  end.

Definition get (this : t) (key : string) (opts : option KVGetOptions)
  : Prog (option Value) :=
  bytes ← call (GetKeyValue (mkKeyRef (accountId this) (namespaceId this) key (apiToken this)));
  match bytes with
  | None => mret None
  | Some bytes =>
      if type_is opts "arrayBuffer" then mret (Some (ArrayBuffer bytes))
      else if type_is opts "json" then
        parsed ← lift (JSON_parse (Bytes_utf8 bytes));
        mret (Some (JsonObject parsed))
      else
        Throw (Error ("ApiKVNamespace.get not implemented. key=string " +:+ key
                      +:+ ", opts=" +:+ JSON_stringify_opts opts))
  end.

Definition getWithMetadata (this : t) (key : string) (opts : option KVGetOptions)
  : Prog (option ValueAndMetadata) :=
  bytes ← call (GetKeyValue (mkKeyRef (accountId this) (namespaceId this) key (apiToken this)));
  match bytes with
  | None => mret None
  | Some bytes =>
      metadata ← call (GetKeyMetadata
                         (mkKeyRef (accountId this) (namespaceId this) key (apiToken this)));
      if type_is opts "arrayBuffer" then
        mret (Some (mkValueAndMetadata (ArrayBuffer bytes) metadata))
      else if type_is opts "json" then
        parsed ← lift (JSON_parse (Bytes_utf8 bytes));
        mret (Some (mkValueAndMetadata (JsonObject parsed) metadata))
      else
        Throw (Error ("ApiKVNamespace.getWithMetadata not implemented. key=" +:+ key
                      +:+ " opts=" +:+ JSON_stringify_opts opts))
  end.

Definition put (this : t) (_key : string) (_value : KVPutValue)
    (_opts : option KVPutOptions) : Prog unit :=
  Throw (Error "ApiKVNamespace.put not implemented.").

Definition delete (this : t) (_key : string) : Prog unit :=
  Throw (Error "ApiKVNamespace.delete not implemented.").

Definition list (this : t) (_opts : option KVListOptions) : Prog KVListResult :=
  Throw (Error "ApiKVNamespace.list not implemented.").

End Namespace.
End ApiKVNamespace.

(** The public operations of the class. *)
Inductive KVOperation : Type :=
| OpGet | OpGetWithMetadata | OpPut | OpDelete | OpList.

(** A program that ends in a "not implemented" error whatever the outside
    world answers. *)
Definition raises_unimplemented {R : Type} (p : Prog R) : Prop :=
  forall w : World, exists message : string,
    run w p = Err (Error message)
    /\ JsString.includes message "not implemented" = true.

(** The operation raises a "not implemented" error for every input. *)
Definition always_unimplemented `{KVDeps} (op : KVOperation) : Prop :=
  match op with
  | OpGet =>
      forall this key opts, raises_unimplemented (ApiKVNamespace.get this key opts)
  | OpGetWithMetadata =>
      forall this key opts,
        raises_unimplemented (ApiKVNamespace.getWithMetadata this key opts)
  | OpPut =>
      forall this key value opts,
        raises_unimplemented (ApiKVNamespace.put this key value opts)
  | OpDelete =>
      forall this key, raises_unimplemented (ApiKVNamespace.delete this key)
  | OpList =>
      forall this opts, raises_unimplemented (ApiKVNamespace.list this opts)
  end.

(* --------------------------------------------------------------------- *)
(** ** Concrete platforms and worlds, for the examples                    *)
(* --------------------------------------------------------------------- *)

Module Examples.

(** A parser for URLs of the form [https://host/path]. *)
Definition simple_new_URL (s : string) : Result URL :=
  match JsString.strip_prefix "https://" s with
  | Some rest =>
      match JsString.cut "/" rest with
      | Some (host, path) =>
          if JsString.truthy host
          then Ok (mkURL s ("https://" +:+ host) ("/" +:+ path))
          else Err (Foreign "TypeError" "Invalid URL")
      | None =>
          if JsString.truthy rest
          then Ok (mkURL (s +:+ "/") s "/")
          else Err (Foreign "TypeError" "Invalid URL")
      end
  | None => Err (Foreign "TypeError" "Invalid URL")
  end.

Definition worker_deps : WorkerDeps := {|
  new_URL := simple_new_URL;
  TAILWEB_APP_DATA := "https://cdn.example/tailweb_app.js";
  PAGE := ("<!DOCTYPE html> ", "/image.jpg ", "/page ", "/page </html>");
|}.

(** String options as they are, numbers in decimal, anything else is an
    error. *)
Definition simple_parseOptionalStringOption (name : string)
    (options : gmap string JsValue) : Result (option string) :=
  match options !! name with
  | None => Ok None
  | Some (JsStr s) => Ok (Some s)
  | Some (JsNum n) => Ok (Some (JsString.ofNumber n))
  | Some v => Err (Error ("Bad " +:+ name +:+ ": " +:+ JsValue_toString (Some v)))
  end.

Definition cli_deps : CliDeps := {|
  JsonValue := string;
  ParseError := string;
  parseOptionalStringOption := simple_parseOptionalStringOption;
  isValidProfileName := fun name => JsString.truthy name && negb (JsString.includes name " ");
  parseJsonc := fun jsonc => (jsonc, []);
  formatParseError := fun e _ => e;
  checkConfig := fun _ => Ok (mkConfig None None);
  JSON_stringify_accounts := fun accounts => JsString.join "," (map account_id accounts);
  RegExp_match1 := fun _ _ _ => Ok None;
|}.

Definition kv_deps : KVDeps := {|
  Json := string;
  Bytes_utf8 := string_of_list_byte;
  JSON_parse := fun text => Ok text;
  JSON_stringify_opts := fun opts =>
    match opts with
    | None => "undefined"
    | Some o => "{type:" +:+ default "undefined" (opts_type o) +:+ "}"
    end;
|}.

Definition config_work : Config :=
  mkConfig None (Some {[ "work" := mkProfile "acc-w" "tok-w" (Some true) ]}).

Definition config_two : Config :=
  mkConfig None (Some {[ "a" := mkProfile "acc-a" "tok-a" None;
                         "b" := mkProfile "acc-b" "tok-b" (Some false) ]}).

Definition options_cli : gmap string JsValue :=
  {[ "account-id" := JsStr "acc-cli"; "api-token" := JsStr "tok-cli";
     "profile" := JsStr "work" ]}.

Definition script_work : Script := mkScript "worker.ts" (Some "work").

(** A world given by its answers. *)
Record Answers : Type := mkAnswers {
  on_fetch : string -> Result Response;
  on_env : string -> Result (option string);
  on_cwd : Result Dir;
  on_exists : string -> Result bool;
  on_read : string -> Result string;
  on_accounts : string -> Result (list Account);
  on_value : KeyRef -> Result (option Bytes);
  on_metadata : KeyRef -> Result (option (gmap string string));
}.

Definition world (a : Answers) : World :=
  fun A ev =>
    match ev in Event T return Result T with
    | HttpFetch url _ => on_fetch a url
    | EnvGet name => on_env a name
    | Cwd => on_cwd a
    | FileExists path => on_exists a path
    | ReadTextFile path => on_read a path
    | ListAccounts apiToken => on_accounts a apiToken
    | GetKeyValue ref => on_value a ref
    | GetKeyMetadata ref => on_metadata a ref
    end.

(** A namespace and a store that holds a value for every key but fails to
    read the metadata. *)
Definition namespace : ApiKVNamespace.t := ApiKVNamespace.new "acc" "tok" "ns".

(** A machine with nothing on it: no files, no variables, no keys. *)
Definition bare : Answers := {|
  on_fetch := fun _ => Ok (mkResponse 200 [] "");
  on_env := fun _ => Ok None;
  on_cwd := Ok ["project"; "home"];
  on_exists := fun _ => Ok false;
  on_read := fun _ => Err (Foreign "NotFound" "No such file or directory");
  on_accounts := fun _ => Ok [];
  on_value := fun _ => Ok None;
  on_metadata := fun _ => Ok None;
|}.

(** The two variables are set, the account id with blanks around it. *)
Definition with_env : Answers := {|
  on_fetch := on_fetch bare;
  on_env := fun name =>
    if String.eqb name "CF_ACCOUNT_ID" then Ok (Some " acc-1 ")
    else if String.eqb name "CF_API_TOKEN" then Ok (Some "tok-1")
    else Ok None;
  on_cwd := on_cwd bare;
  on_exists := on_exists bare;
  on_read := on_read bare;
  on_accounts := on_accounts bare;
  on_value := on_value bare;
  on_metadata := on_metadata bare;
|}.

(** No permission to read the environment. *)
Definition env_denied : Answers := {|
  on_fetch := on_fetch bare;
  on_env := fun _ => Err (PermissionDenied "Requires env access");
  on_cwd := on_cwd bare;
  on_exists := on_exists bare;
  on_read := on_read bare;
  on_accounts := on_accounts bare;
  on_value := on_value bare;
  on_metadata := on_metadata bare;
|}.

(** No permission to look above the working directory. *)
Definition walk_denied : Answers := {|
  on_fetch := on_fetch bare;
  on_env := on_env bare;
  on_cwd := on_cwd bare;
  on_exists := fun path =>
    if String.eqb path "/home/project/.denoflare" then Ok false
    else Err (PermissionDenied "Requires read access");
  on_read := on_read bare;
  on_accounts := on_accounts bare;
  on_value := on_value bare;
  on_metadata := on_metadata bare;
|}.

Definition metadata_down : Answers := {|
  on_fetch := on_fetch bare;
  on_env := on_env bare;
  on_cwd := on_cwd bare;
  on_exists := on_exists bare;
  on_read := on_read bare;
  on_accounts := on_accounts bare;
  on_value := fun _ => Ok (Some []);
  on_metadata := fun _ => Err (Foreign "CloudflareApiError" "getKeyMetadata failed");
|}.

End Examples.

(* --------------------------------------------------------------------- *)
(** ** Writing a credentials file                                         *)
(* --------------------------------------------------------------------- *)

(** The line feed and the carriage return, as strings. *)
Definition LF : string := String "010" EmptyString.
Definition CR : string := String "013" EmptyString.

(** The text of a credentials file with one section, in the layout that
    [loadAwsCredentialsForProfile] reads: the header [[<profile>]], then
    one [name = value] line for each of the two keys. *)
Definition credentials_text (profile id secret : string) : string :=
  "[" +:+ profile +:+ "]" +:+ LF
  +:+ "aws_access_key_id = " +:+ id +:+ LF
  +:+ "aws_secret_access_key = " +:+ secret.

(* --------------------------------------------------------------------- *)
(** ** More worlds and inputs, for the examples                           *)
(* --------------------------------------------------------------------- *)

Module Scenes.
Import Examples.

(** The config file is in the parent of the working directory. *)
Definition file_above : Answers := {|
  on_fetch := on_fetch bare;
  on_env := on_env bare;
  on_cwd := on_cwd bare;
  on_exists := fun path => Ok (String.eqb path "/home/.denoflare");
  on_read := fun path =>
    if String.eqb path "/home/.denoflare" then Ok "{}"
    else Err (Foreign "NotFound" "No such file or directory");
  on_accounts := on_accounts bare;
  on_value := on_value bare;
  on_metadata := on_metadata bare;
|}.

(** The config file is found but may not be read. *)
Definition file_unreadable : Answers := {|
  on_fetch := on_fetch bare;
  on_env := on_env bare;
  on_cwd := on_cwd bare;
  on_exists := fun path => Ok (String.eqb path "/home/.denoflare");
  on_read := fun _ => Err (PermissionDenied "Requires read access");
  on_accounts := on_accounts bare;
  on_value := on_value bare;
  on_metadata := on_metadata bare;
|}.

(** Only the account id is set. *)
Definition half_env : Answers := {|
  on_fetch := on_fetch bare;
  on_env := fun name =>
    if String.eqb name "CF_ACCOUNT_ID" then Ok (Some "acc-1")
    else if String.eqb name "CF_API_TOKEN" then Ok (Some "   ")
    else Ok None;
  on_cwd := on_cwd bare;
  on_exists := on_exists bare;
  on_read := on_read bare;
  on_accounts := on_accounts bare;
  on_value := on_value bare;
  on_metadata := on_metadata bare;
|}.

Definition options_config : gmap string JsValue :=
  {[ "config" := JsStr " /etc/denoflare.jsonc " ]}.

(** Three profiles, one of them the default; two profiles, both default. *)
Definition config_default : Config :=
  mkConfig None (Some {[ "a" := mkProfile "acc-a" "tok-a" None;
                         "b" := mkProfile "acc-b" "tok-b" (Some true);
                         "c" := mkProfile "acc-c" "tok-c" (Some false) ]}).

Definition config_defaults : Config :=
  mkConfig None (Some {[ "a" := mkProfile "acc" "tok" (Some true);
                         "b" := mkProfile "acc" "tok" (Some true) ]}).


Definition options_token : gmap string JsValue := {[ "api-token" := JsStr "tok-9" ]}.

(** The home directory holds a credentials file with the section [dev]. *)
Definition aws_home : Answers := {|
  on_fetch := on_fetch bare;
  on_env := fun name => if String.eqb name "HOME" then Ok (Some "/home/me") else Ok None;
  on_cwd := on_cwd bare;
  on_exists := on_exists bare;
  on_read := fun path =>
    if String.eqb path "/home/me/.aws/credentials"
    then Ok (credentials_text "dev" "AKIA1" " s3cr3t ")
    else Err (Foreign "NotFound" "No such file or directory");
  on_accounts := on_accounts bare;
  on_value := on_value bare;
  on_metadata := on_metadata bare;
|}.

(** The store holds an empty value for every key, without metadata. *)
Definition with_value : Answers := {|
  on_fetch := on_fetch bare;
  on_env := on_env bare;
  on_cwd := on_cwd bare;
  on_exists := on_exists bare;
  on_read := on_read bare;
  on_accounts := on_accounts bare;
  on_value := fun _ => Ok (Some []);
  on_metadata := fun _ => Ok None;
|}.

Definition bindings_two : gmap string Binding :=
  {[ "origin" := TextBinding "http://localhost:${localPort}";
     "mode" := OtherBinding "kvNamespace" "ns-1" ]}.

End Scenes.

(* ===================================================================== *)
(** * Part II: theorems                                                   *)
(* ===================================================================== *)

(** ** Facts about the string built-ins *)

Module JsStringFacts.
Import JsString.

#[local] Arguments String.append !_ _ / : simpl nomatch.

Lemma append_nil_r s : s +:+ "" = s.
Proof. induction s as [|c s IH]; simpl; [done | by f_equal]. Qed.

Lemma append_assoc s1 s2 s3 : (s1 +:+ s2) +:+ s3 = s1 +:+ (s2 +:+ s3).
Proof. induction s1 as [|c s1 IH]; simpl; [done | by f_equal]. Qed.

Lemma length_append s1 s2 :
  String.length (s1 +:+ s2) = String.length s1 + String.length s2.
Proof. induction s1 as [|c s1 IH]; simpl; [done | by f_equal]. Qed.

Lemma append_eq_nil s1 s2 : s1 +:+ s2 = "" -> s1 = "" /\ s2 = "".
Proof. destruct s1; simpl; [done | discriminate]. Qed.

(** Two ways of splitting one string share a middle part. *)
Lemma append_eq_append a b c d :
  a +:+ b = c +:+ d ->
  exists k, (a = c +:+ k /\ d = k +:+ b) \/ (c = a +:+ k /\ b = k +:+ d).
Proof.
  revert c. induction a as [|x a IH]; intros c Heq; simpl in Heq.
  - exists c. right. by split.
  - destruct c as [|y c]; simpl in Heq.
    + exists (String x a). left. by split.
    + injection Heq as -> Heq. destruct (IH _ Heq) as [k [[-> ->]|[-> ->]]];
        exists k; [left | right]; by split.
Qed.

Lemma strip_prefix_Some p s r : strip_prefix p s = Some r <-> s = p +:+ r.
Proof.
  revert s. induction p as [|c p IH]; intros s; simpl.
  - split; [by intros [= ->] | by intros ->].
  - destruct s as [|d s].
    + split; discriminate.
    + destruct (Ascii.eqb_spec c d) as [->|Hne].
      * rewrite IH. split; [by intros -> | by intros [= ->]].
      * split; [discriminate | intros [= ? ?]; congruence].
Qed.

Lemma strip_prefix_append p r : strip_prefix p (p +:+ r) = Some r.
Proof. by apply strip_prefix_Some. Qed.

Lemma startsWith_true s p : startsWith s p = true <-> exists r, s = p +:+ r.
Proof.
  unfold startsWith. destruct (strip_prefix p s) as [r|] eqn:E.
  - apply strip_prefix_Some in E. split; [by exists r | done].
  - split; [discriminate | intros [r ->]].
    by rewrite strip_prefix_append in E.
Qed.

Lemma substring_from_append p r : substring_from (String.length p) (p +:+ r) = r.
Proof. induction p as [|c p IH]; simpl; [by destruct r | done]. Qed.

(** [cut] splits the string around an occurrence of the pattern ... *)
Lemma cut_Some pat s b a : cut pat s = Some (b, a) -> s = b +:+ pat +:+ a.
Proof.
  revert b. induction s as [|c s IH]; intros b; simpl.
  - destruct (strip_prefix pat "") as [r|] eqn:E; [|discriminate].
    intros [= <- <-]. by apply strip_prefix_Some in E.
  - destruct (strip_prefix pat (String c s)) as [r|] eqn:E.
    + intros [= <- <-]. by apply strip_prefix_Some in E.
    + destruct (cut pat s) as [[b' a']|]; [|discriminate].
      intros [= <- <-]. simpl. f_equal. by apply IH.
Qed.

(** ... and no occurrence starts earlier. *)
Lemma cut_first pat s b a x y :
  cut pat s = Some (b, a) -> s = x +:+ pat +:+ y ->
  String.length b <= String.length x.
Proof.
  revert b x. induction s as [|c s IH]; intros b x; simpl.
  - destruct (strip_prefix pat "") as [r|]; [|discriminate].
    intros [= <- <-] _. simpl. lia.
  - destruct (strip_prefix pat (String c s)) as [r|] eqn:E.
    + intros [= <- <-] _. simpl. lia.
    + destruct (cut pat s) as [[b' a']|] eqn:Ec; [|discriminate].
      intros [= <- <-] Hs. destruct x as [|c' x]; simpl in Hs.
      * rewrite Hs, strip_prefix_append in E. discriminate.
      * injection Hs as -> Hs. simpl. specialize (IH _ _ eq_refl Hs). lia.
Qed.

Lemma cut_None pat s x y : cut pat s = None -> s <> x +:+ pat +:+ y.
Proof.
  revert x. induction s as [|c s IH]; intros x; simpl.
  - destruct (strip_prefix pat "") as [r|] eqn:E; [discriminate|].
    intros _ Hs. destruct x; [|discriminate]. simpl in Hs.
    rewrite Hs, strip_prefix_append in E. discriminate.
  - destruct (strip_prefix pat (String c s)) as [r|] eqn:E; [discriminate|].
    destruct (cut pat s) as [[b' a']|] eqn:Ec; [discriminate|].
    intros _ Hs. destruct x as [|c' x]; simpl in Hs.
    + rewrite Hs, strip_prefix_append in E. discriminate.
    + injection Hs as -> Hs. by apply (IH x).
Qed.

Lemma cut_None_cons pat c s : cut pat (String c s) = None -> cut pat s = None.
Proof.
  intros Hc. destruct (cut pat s) as [[b a]|] eqn:E; [|done].
  apply cut_Some in E. exfalso.
  apply (cut_None _ _ (String c b) a Hc). simpl. by f_equal.
Qed.

Lemma includes_true s pat :
  includes s pat = true <-> exists x y, s = x +:+ pat +:+ y.
Proof.
  unfold includes. destruct (cut pat s) as [[b a]|] eqn:E.
  - split; [|done]. intros _. exists b, a. by apply cut_Some.
  - split; [discriminate|]. intros (x & y & Hs). by apply cut_None with (x:=x) (y:=y) in E.
Qed.

Lemma includes_false s pat :
  includes s pat = false <-> cut pat s = None.
Proof. unfold includes. destruct (cut pat s); split; done. Qed.

Lemma includes_cut s pat :
  includes s pat = true -> exists b a, cut pat s = Some (b, a).
Proof. unfold includes. destruct (cut pat s) as [[b a]|]; [eauto | discriminate]. Qed.

Lemma replace_cut s pat repl b a :
  cut pat s = Some (b, a) ->
  replace s pat repl = b +:+ GetSubstitution pat b a repl +:+ a.
Proof. unfold replace. by intros ->. Qed.

Lemma replace_absent s pat repl : includes s pat = false -> replace s pat repl = s.
Proof. rewrite includes_false. unfold replace. by intros ->. Qed.

(** A template without a dollar sign stands for itself. *)
Lemma GetSubstitution_plain matched before after template :
  includes template "$" = false ->
  GetSubstitution matched before after template = template.
Proof.
  rewrite includes_false.
  induction template as [|c t IH]; intros Hc; [done|].
  assert (c <> "$"%char) as Hne.
  { intros ->. by apply (cut_None _ _ "" t Hc). }
  simpl. destruct (Ascii.eqb_spec c "$") as [->|_]; [done|].
  f_equal. apply IH. by apply cut_None_cons in Hc.
Qed.

Lemma string_of_uint_plain d : includes (NilEmpty.string_of_uint d) "$" = false.
Proof.
  rewrite includes_false.
  induction d as [|d IH|d IH|d IH|d IH|d IH|d IH|d IH|d IH|d IH|d IH];
    simpl; [done | by rewrite IH ..].
Qed.

Lemma ofNumber_plain n : includes (ofNumber n) "$" = false.
Proof. apply string_of_uint_plain. Qed.

(** Replacing a placeholder by a number puts the digits in its place. *)
Lemma replace_by_number s pat n b a :
  cut pat s = Some (b, a) ->
  replace s pat (ofNumber n) = b +:+ ofNumber n +:+ a.
Proof.
  intros Hc. rewrite (replace_cut _ _ _ _ _ Hc).
  by rewrite GetSubstitution_plain by apply ofNumber_plain.
Qed.

End JsStringFacts.

(** ** Programs *)

Section ProgFacts.
Context {A B : Type}.

Lemma run_bind (w : World) (p : Prog A) (f : A -> Prog B) :
  run w (p ≫= f) = match run w p with Ok a => run w (f a) | Err e => Err e end.
Proof.
  change (p ≫= f) with (bind p f).
  induction p as [a|e|T ev k IH]; simpl; [done | done | apply IH].
Qed.

Lemma run_try_catch (w : World) (p : Prog A) (handler : Exn -> Prog A) :
  run w (try_catch p handler) =
  match run w p with Ok a => Ok a | Err e => run w (handler e) end.
Proof. induction p as [a|e|T ev k IH]; simpl; [done | done | apply IH]. Qed.

Lemma run_call (w : World) (ev : Event A) :
  run w (call ev) = w A ev.
Proof. unfold call. simpl. by destruct (w A ev). Qed.

Lemma run_lift (w : World) (r : Result A) : run w (lift r) = r.
Proof. by destruct r. Qed.

End ProgFacts.

(** ** The request handler of the tail web worker *)

Section WorkerFacts.
Context `{WorkerDeps}.

(** On a path under [/fetch/] the handler looks at the origin of the
    target and at nothing else. *)
Lemma fetch_under_fetch (request : Request) (url fetchUrl : URL) (rest : string) :
  new_URL (req_url request) = Ok url ->
  url_pathname url = "/fetch/" +:+ rest ->
  new_URL ("https://" +:+ rest) = Ok fetchUrl ->
  TailwebWorker.fetch request =
  if String.eqb (url_origin fetchUrl) "https://api.cloudflare.com" then
    call (HttpFetch ("https://" +:+ rest)
            (Some (mkRequestInit (req_method request)
                     (List.filter (fun v => negb (JsString.startsWith (fst v) "cf-"))
                                  (req_headers request))
                     None)))
  else
    Throw (ThrownResponse (mkResponse 400 [] ("Unable to fetch " +:+ url_href fetchUrl))).
Proof.
  intros Hurl Hpath Hfetch. unfold TailwebWorker.fetch.
  rewrite Hurl. cbn [lift resume mbind Prog_bind bind]. rewrite Hpath.
  change (String.eqb ("/fetch/" +:+ rest) "/") with false.
  change (String.eqb ("/fetch/" +:+ rest) "/app.js") with false.
  change (JsString.startsWith ("/fetch/" +:+ rest) "/fetch/") with true.
  cbv iota.
  change (JsString.substring_from (String.length "/fetch/") ("/fetch/" +:+ rest)) with rest.
  rewrite Hfetch. cbn [lift resume mbind Prog_bind bind].
  by destruct (String.eqb (url_origin fetchUrl) "https://api.cloudflare.com").
Qed.

(** C2: a request under [/fetch/] whose target has another origin than
    [https://api.cloudflare.com] is rejected with a [Response] of status
    400; the handler throws this [Response], it does not return it. *)
Theorem fetch_other_origin_throws (request : Request) (url fetchUrl : URL) (rest : string) :
  new_URL (req_url request) = Ok url ->
  url_pathname url = "/fetch/" +:+ rest ->
  new_URL ("https://" +:+ rest) = Ok fetchUrl ->
  url_origin fetchUrl <> "https://api.cloudflare.com" ->
  TailwebWorker.fetch request =
    Throw (ThrownResponse (mkResponse 400 [] ("Unable to fetch " +:+ url_href fetchUrl)))
  /\ forall (w : World) (response : Response),
       run w (TailwebWorker.fetch request) <> Ok response.
Proof.
  intros Hurl Hpath Hfetch Horigin.
  rewrite (fetch_under_fetch _ _ _ _ Hurl Hpath Hfetch).
  destruct (String.eqb_spec (url_origin fetchUrl) "https://api.cloudflare.com") as [E|_];
    [done|].
  split; [done | intros w response; discriminate].
Qed.

(** C3: a proxied request goes upstream with the method of the incoming
    request, without a body, and with the incoming headers in their
    order, less exactly those whose name starts with [cf-]. *)
Theorem fetch_forwards_headers (request : Request) (url fetchUrl : URL) (rest : string) :
  new_URL (req_url request) = Ok url ->
  url_pathname url = "/fetch/" +:+ rest ->
  new_URL ("https://" +:+ rest) = Ok fetchUrl ->
  url_origin fetchUrl = "https://api.cloudflare.com" ->
  exists init : RequestInit,
    TailwebWorker.fetch request = call (HttpFetch ("https://" +:+ rest) (Some init))
    /\ init_method init = req_method request
    /\ init_headers init =
         List.filter (fun v => negb (JsString.startsWith (fst v) "cf-"))
                     (req_headers request)
    /\ (forall name value,
          In (name, value) (init_headers init) <->
          In (name, value) (req_headers request)
          /\ JsString.startsWith name "cf-" = false)
    /\ sublist (init_headers init) (req_headers request).
Proof.
  intros Hurl Hpath Hfetch Horigin.
  rewrite (fetch_under_fetch _ _ _ _ Hurl Hpath Hfetch), Horigin.
  change (String.eqb "https://api.cloudflare.com" "https://api.cloudflare.com") with true.
  eexists. split; [reflexivity|]. cbn [init_method init_headers].
  split; [done|]. split; [done|]. split.
  - intros name value. rewrite filter_In. cbn [fst].
    by rewrite negb_true_iff.
  - induction (req_headers request) as [|v l IH]; simpl; [constructor|].
    destruct (negb _); by constructor.
Qed.

End WorkerFacts.

Lemma fetch_other_origin_throws_witness :
  TailwebWorker.fetch (H := Examples.worker_deps)
    (mkRequest "GET" "https://tail.example/fetch/evil.com/x" [("accept", "*/*")])
  = Throw (ThrownResponse (mkResponse 400 [] "Unable to fetch https://evil.com/x")).
Proof.
  apply (fetch_other_origin_throws (H := Examples.worker_deps)
           (mkRequest "GET" "https://tail.example/fetch/evil.com/x" [("accept", "*/*")])
           (mkURL "https://tail.example/fetch/evil.com/x" "https://tail.example"
                  "/fetch/evil.com/x")
           (mkURL "https://evil.com/x" "https://evil.com" "/x")
           "evil.com/x");
    [reflexivity | reflexivity | reflexivity | discriminate].
Defined.

Lemma fetch_forwards_headers_witness :
  exists init : RequestInit,
    TailwebWorker.fetch (H := Examples.worker_deps)
      (mkRequest "GET" "https://tail.example/fetch/api.cloudflare.com/client/v4/accounts"
         [("accept", "*/*"); ("cf-connecting-ip", "203.0.113.7"); ("x-auth", "t")])
    = call (HttpFetch "https://api.cloudflare.com/client/v4/accounts" (Some init))
    /\ init_method init = "GET"
    /\ init_headers init = [("accept", "*/*"); ("x-auth", "t")].
Proof.
  destruct (fetch_forwards_headers (H := Examples.worker_deps)
              (mkRequest "GET" "https://tail.example/fetch/api.cloudflare.com/client/v4/accounts"
                 [("accept", "*/*"); ("cf-connecting-ip", "203.0.113.7"); ("x-auth", "t")])
              (mkURL "https://tail.example/fetch/api.cloudflare.com/client/v4/accounts"
                     "https://tail.example" "/fetch/api.cloudflare.com/client/v4/accounts")
              (mkURL "https://api.cloudflare.com/client/v4/accounts"
                     "https://api.cloudflare.com" "/client/v4/accounts")
              "api.cloudflare.com/client/v4/accounts"
              eq_refl eq_refl eq_refl eq_refl)
    as (init & Hcall & Hmethod & Hheaders & _).
  exists init. split; [exact Hcall|]. split; [exact Hmethod | exact Hheaders].
Defined.

(** ** Profile resolution *)

Section ProfileFacts.
Context `{CliDeps}.
Import ConfigLoader.

(** The last step of [findProfile], reached when no option and no script
    names a profile. *)
Lemma findProfile_fallback (config : Config) (options : gmap string JsValue)
    (script : option Script) (accountId apiToken : option string) :
  parseOptionalStringOption "account-id" options = Ok accountId ->
  parseOptionalStringOption "api-token" options = Ok apiToken ->
  apiToken = None \/ apiToken = Some "" ->
  options !! "profile" = None ->
  script ≫= script_profile = None \/ script ≫= script_profile = Some "" ->
  findProfile config options script =
  let profilesArr := (map_to_list (profiles_of config)).*2 in
  if Nat.eqb (length profilesArr) 0 then Ret None
  else
    match List.filter is_default profilesArr, profilesArr with
    | [v], _ => Ret (Some v)
    | _, [v] => Ret (Some v)
    | defaultProfiles, _ =>
        Throw (Error ("Unable to find profile, "
                      +:+ JsString.ofNumber (N.of_nat (length profilesArr))
                      +:+ " profiles in config, and "
                      +:+ JsString.ofNumber (N.of_nat (length defaultProfiles))
                      +:+ " marked as default"))
    end.
Proof.
  intros Hacc Htok Hno Hopt Hscript. unfold findProfile.
  rewrite Hacc, Htok. cbn [lift resume mbind Prog_bind bind].
  destruct Hno as [-> | ->]; rewrite Hopt;
    destruct Hscript as [-> | ->]; cbn zeta;
    (destruct (Nat.eqb _ 0); [done|]);
    destruct (List.filter _ _) as [|? [|? ?]];
    by destruct ((map_to_list (profiles_of config)).*2) as [|? [|? ?]].
Qed.

(** C1: credentials are taken from the first source that is present:
    the api-token option (with the account-id option, or else the
    account the API lists for the token), then the profile named by the
    profile option, then the profile the script declares, then the
    default or single profile of the config.  A source that is present
    decides the result: the result stays the same when the later sources
    change. *)
Theorem findProfile_precedence (config : Config) (options : gmap string JsValue)
    (script : option Script) (accountId apiToken : option string) :
  parseOptionalStringOption "account-id" options = Ok accountId ->
  parseOptionalStringOption "api-token" options = Ok apiToken ->
  (forall token, apiToken = Some token -> token <> "" ->
     (forall account, accountId = Some account -> account <> "" ->
        findProfile config options script = Ret (Some (mkProfile account token None)))
     /\ (accountId = None \/ accountId = Some "" ->
         findProfile config options script = locateAccount token)
     /\ (forall config' options' script',
           parseOptionalStringOption "account-id" options' = Ok accountId ->
           parseOptionalStringOption "api-token" options' = Ok apiToken ->
           findProfile config' options' script' = findProfile config options script))
  /\ (apiToken = None \/ apiToken = Some "" ->
      (forall v, options !! "profile" = Some v ->
         (forall name profile,
            v = JsStr name -> isValidProfileName name = true ->
            profiles_of config !! name = Some profile ->
            findProfile config options script = Ret (Some profile))
         /\ (forall config' script',
               (forall name, v = JsStr name ->
                  profiles_of config' !! name = profiles_of config !! name) ->
               findProfile config' options script' = findProfile config options script))
      /\ (options !! "profile" = None ->
          forall s name, script = Some s -> script_profile s = Some name -> name <> "" ->
            (forall profile,
               isValidProfileName name = true ->
               profiles_of config !! name = Some profile ->
               findProfile config options script = Ret (Some profile))
            /\ (forall config',
                  profiles_of config' !! name = profiles_of config !! name ->
                  findProfile config' options script = findProfile config options script))
      /\ (options !! "profile" = None ->
          script ≫= script_profile = None \/ script ≫= script_profile = Some "" ->
          (profiles_of config = ∅ -> findProfile config options script = Ret None)
          /\ (forall v,
                List.filter is_default (map_to_list (profiles_of config)).*2 = [v] ->
                findProfile config options script = Ret (Some v))
          /\ (forall v,
                (map_to_list (profiles_of config)).*2 = [v] ->
                findProfile config options script = Ret (Some v)))).
Proof.
  intros Hacc Htok. split; [|intros Hno; split; [|split]].
  - intros token -> Hne. destruct token as [|c token]; [done|].
    assert (forall config' options' script',
              parseOptionalStringOption "account-id" options' = Ok accountId ->
              parseOptionalStringOption "api-token" options' = Ok (Some (String c token)) ->
              findProfile config' options' script' =
              match accountId with
              | Some (String _ _ as account) =>
                  Ret (Some (mkProfile account (String c token) None))
              | _ => locateAccount (String c token)
              end) as Hshape.
    { intros config' options' script' Hacc' Htok'. unfold findProfile.
      rewrite Hacc', Htok'. reflexivity. }
    split; [|split].
    + intros account -> Hacc_ne. rewrite (Hshape _ _ _ Hacc Htok).
      by destruct account.
    + intros Hnone. rewrite (Hshape _ _ _ Hacc Htok).
      by destruct Hnone as [-> | ->].
    + intros config' options' script' Hacc' Htok'.
      by rewrite (Hshape _ _ _ Hacc' Htok'), (Hshape _ _ _ Hacc Htok).
  - intros v Hopt.
    assert (forall config' script',
              findProfile config' options script' =
              match v with
              | JsStr name =>
                  if negb (isValidProfileName name) then
                    Throw (Error ("Bad profile name: " +:+ name))
                  else
                    match profiles_of config' !! name with
                    | Some optionProfile => Ret (Some optionProfile)
                    | None =>
                        Throw (Error ("Unable to find profile " +:+ name +:+ " in config"))
                    end
              | _ => Throw (Error ("Bad profile name: " +:+ JsValue_toString (Some v)))
              end) as Hshape.
    { intros config' script'. unfold findProfile.
      rewrite Hacc, Htok. cbn [lift resume mbind Prog_bind bind]. rewrite Hopt.
      destruct Hno as [-> | ->]; by destruct v. }
    split.
    + intros name profile -> Hvalid Hfound.
      by rewrite Hshape, Hvalid, Hfound.
    + intros config' script' Hsame. rewrite !Hshape.
      destruct v as [name| | |]; [|done..].
      by rewrite (Hsame name eq_refl).
  - intros Hopt s name -> Hprofile Hne.
    destruct name as [|c name]; [done|].
    assert (forall config',
              findProfile config' options (Some s) =
              if negb (isValidProfileName (String c name)) then
                Throw (Error ("Bad profile name: " +:+ String c name))
              else
                match profiles_of config' !! String c name with
                | Some scriptProfile => Ret (Some scriptProfile)
                | None => Throw (Error "Unable to find profile undefined in config")
                end) as Hshape.
    { intros config'. unfold findProfile.
      rewrite Hacc, Htok. cbn [lift resume mbind Prog_bind bind]. rewrite Hopt.
      cbn [mbind option_bind]. rewrite Hprofile.
      by destruct Hno as [-> | ->]. }
    split.
    + intros profile Hvalid Hfound. by rewrite Hshape, Hvalid, Hfound.
    + intros config' Hsame. by rewrite !Hshape, Hsame.
  - intros Hopt Hscript.
    rewrite (findProfile_fallback _ _ _ _ _ Hacc Htok Hno Hopt Hscript). cbn zeta.
    split; [|split].
    + intros ->. by rewrite map_to_list_empty.
    + intros v Hdefault. rewrite Hdefault. revert Hdefault.
      destruct ((map_to_list (profiles_of config)).*2); [by simpl | done].
    + intros v ->. cbn [length Nat.eqb].
      cbn [List.filter]. by destruct (is_default v).
Qed.

(** C4: when no option and no script names a profile, a config with
    exactly one profile resolves to that profile, marked default or not,
    and a config with two profiles of which none is marked default makes
    the resolution fail. *)
Theorem findProfile_single_or_ambiguous (config : Config)
    (options : gmap string JsValue) (script : option Script)
    (accountId apiToken : option string) :
  parseOptionalStringOption "account-id" options = Ok accountId ->
  parseOptionalStringOption "api-token" options = Ok apiToken ->
  apiToken = None \/ apiToken = Some "" ->
  options !! "profile" = None ->
  script ≫= script_profile = None \/ script ≫= script_profile = Some "" ->
  (size (profiles_of config) = 1 ->
     exists name profile,
       profiles_of config = {[ name := profile ]}
       /\ findProfile config options script = Ret (Some profile))
  /\ (size (profiles_of config) = 2 ->
      (forall name profile,
         profiles_of config !! name = Some profile -> is_default profile = false) ->
      findProfile config options script =
        Throw (Error "Unable to find profile, 2 profiles in config, and 0 marked as default")).
Proof.
  intros Hacc Htok Hno Hopt Hscript.
  rewrite (findProfile_fallback _ _ _ _ _ Hacc Htok Hno Hopt Hscript). cbn zeta.
  rewrite <- !length_map_to_list.
  split.
  - intros Hsize.
    destruct (map_to_list (profiles_of config)) as [|[name profile] [|? ?]] eqn:E;
      [discriminate Hsize | | discriminate Hsize].
    exists name, profile. split.
    + by rewrite <- (list_to_map_to_list (profiles_of config)), E.
    + cbn [fmap list_fmap snd length Nat.eqb List.filter].
      by destruct (is_default profile).
  - intros Hsize Hnone.
    destruct (map_to_list (profiles_of config)) as [|[n1 p1] [|[n2 p2] [|? ?]]] eqn:E;
      try discriminate Hsize.
    assert (is_default p1 = false) as H1.
    { apply (Hnone n1), elem_of_map_to_list. rewrite E. left. }
    assert (is_default p2 = false) as H2.
    { apply (Hnone n2), elem_of_map_to_list. rewrite E. right. left. }
    cbn [fmap list_fmap snd length Nat.eqb List.filter]. by rewrite H1, H2.
Qed.

End ProfileFacts.

Lemma findProfile_precedence_witness :
  ConfigLoader.findProfile (H := Examples.cli_deps)
    Examples.config_work Examples.options_cli (Some Examples.script_work)
  = Ret (Some (mkProfile "acc-cli" "tok-cli" None)).
Proof.
  assert (parseOptionalStringOption (CliDeps := Examples.cli_deps)
            "account-id" Examples.options_cli = Ok (Some "acc-cli")) as Hacc
    by (vm_compute; reflexivity).
  assert (parseOptionalStringOption (CliDeps := Examples.cli_deps)
            "api-token" Examples.options_cli = Ok (Some "tok-cli")) as Htok
    by (vm_compute; reflexivity).
  destruct (findProfile_precedence (H := Examples.cli_deps)
              Examples.config_work Examples.options_cli (Some Examples.script_work)
              (Some "acc-cli") (Some "tok-cli") Hacc Htok) as [Hcli _].
  destruct (Hcli "tok-cli" eq_refl ltac:(discriminate)) as [Hboth _].
  exact (Hboth "acc-cli" eq_refl ltac:(discriminate)).
Defined.

Lemma findProfile_single_or_ambiguous_witness :
  ConfigLoader.findProfile (H := Examples.cli_deps) Examples.config_two ∅ None
  = Throw (Error "Unable to find profile, 2 profiles in config, and 0 marked as default").
Proof.
  assert (parseOptionalStringOption (CliDeps := Examples.cli_deps)
            "account-id" ∅ = Ok None) as Hacc by (vm_compute; reflexivity).
  assert (parseOptionalStringOption (CliDeps := Examples.cli_deps)
            "api-token" ∅ = Ok None) as Htok by (vm_compute; reflexivity).
  assert ((∅ : gmap string JsValue) !! "profile" = None) as Hopt
    by (vm_compute; reflexivity).
  destruct (findProfile_single_or_ambiguous (H := Examples.cli_deps)
              Examples.config_two ∅ None None None Hacc Htok
              (or_introl eq_refl) Hopt (or_introl eq_refl)) as [_ Htwo].
  apply Htwo; [vm_compute; reflexivity|].
  intros name profile Hfound.
  apply elem_of_map_to_list in Hfound. vm_compute in Hfound.
  apply list_elem_of_In in Hfound.
  destruct Hfound as [[= <- <-]|[[= <- <-]|[]]]; reflexivity.
Defined.

(** ** The remote KV namespace *)

Section KVFacts.
Context `{KVDeps}.
Import ApiKVNamespace.

Lemma put_unimplemented this key value opts :
  raises_unimplemented (put this key value opts).
Proof.
  intros w. eexists. split; [reflexivity|].
  apply JsStringFacts.includes_true. by exists "ApiKVNamespace.put ", ".".
Qed.

Lemma delete_unimplemented this key :
  raises_unimplemented (ApiKVNamespace.delete this key).
Proof.
  intros w. eexists. split; [reflexivity|].
  apply JsStringFacts.includes_true. by exists "ApiKVNamespace.delete ", ".".
Qed.

Lemma list_unimplemented this opts :
  raises_unimplemented (ApiKVNamespace.list this opts).
Proof.
  intros w. eexists. split; [reflexivity|].
  apply JsStringFacts.includes_true. by exists "ApiKVNamespace.list ", ".".
Qed.

Lemma three_always_unimplemented :
  always_unimplemented OpPut /\ always_unimplemented OpDelete
  /\ always_unimplemented OpList.
Proof.
  split; [|split]; simpl; intros.
  - apply put_unimplemented.
  - apply delete_unimplemented.
  - apply list_unimplemented.
Qed.

(** On a key without a value both reads resolve to [null]. *)
Lemma get_absent (w : World) this key opts :
  w _ (GetKeyValue (mkKeyRef (accountId this) (namespaceId this) key (apiToken this)))
    = Ok None ->
  run w (get this key opts) = Ok None
  /\ run w (getWithMetadata this key opts) = Ok None.
Proof.
  intros Hvalue. unfold get, getWithMetadata.
  by rewrite !run_bind, !run_call, Hvalue.
Qed.

Lemma type_is_exactly opts name :
  type_is opts name = true <-> opts ≫= opts_type = Some name.
Proof.
  unfold type_is. destruct opts as [[[ty|] ?]|]; simpl; [|done..].
  rewrite String.eqb_eq. split; [by intros -> | by intros [= ->]].
Qed.

Lemma type_is_other opts name :
  opts ≫= opts_type <> Some name -> type_is opts name = false.
Proof.
  intros Hne. destruct (type_is opts name) eqn:E; [|done].
  by apply type_is_exactly in E.
Qed.

(** C7, as the code has it: of the five public operations exactly three,
    [put], [delete] and [list], raise a "not implemented" error for every
    input; [get] and [getWithMetadata] do not: they start with a read of the
    key over the API. *)
Theorem unimplemented_operations :
  (forall op : KVOperation,
     always_unimplemented op <-> op ∈ [OpPut; OpDelete; OpList])
  /\ (forall this key opts,
        exists k,
          get this key opts =
          Call (GetKeyValue (mkKeyRef (accountId this) (namespaceId this) key
                               (apiToken this))) k)
  /\ (forall this key opts,
        exists k,
          getWithMetadata this key opts =
          Call (GetKeyValue (mkKeyRef (accountId this) (namespaceId this) key
                               (apiToken this))) k).
Proof.
  split; [|split; intros this key opts; eexists; reflexivity].
  intros op. split.
  - intros Hall.
    destruct op; [exfalso | exfalso | left | right; left | right; right; left].
    + destruct (Hall Examples.namespace "k" None (Examples.world Examples.bare))
        as (message & Hrun & _).
      unfold get in Hrun. rewrite run_bind, run_call in Hrun. discriminate Hrun.
    + destruct (Hall Examples.namespace "k" None (Examples.world Examples.bare))
        as (message & Hrun & _).
      unfold getWithMetadata in Hrun. rewrite run_bind, run_call in Hrun.
      discriminate Hrun.
  - intros Hin. apply list_elem_of_In in Hin.
    destruct three_always_unimplemented as (Hput & Hdelete & Hlist).
    destruct op; [| | done..];
      destruct Hin as [?|[?|[?|[]]]]; discriminate.
Qed.

(** C10, as the code has it: on a key without a value [get] and
    [getWithMetadata] resolve to [null] whatever the options; on a key with
    a value and a type other than [arrayBuffer] and [json] (so also without
    options) [get] raises a "not implemented" error, and [getWithMetadata]
    first reads the metadata of the key: it raises the error of that read
    when it fails and a "not implemented" error when it answers. *)
Theorem get_null_or_unimplemented (w : World) this key opts :
  let ref := mkKeyRef (accountId this) (namespaceId this) key (apiToken this) in
  (w _ (GetKeyValue ref) = Ok None ->
     run w (get this key opts) = Ok None
     /\ run w (getWithMetadata this key opts) = Ok None)
  /\ (forall bytes,
        w _ (GetKeyValue ref) = Ok (Some bytes) ->
        opts ≫= opts_type <> Some "arrayBuffer" ->
        opts ≫= opts_type <> Some "json" ->
        (exists message,
           run w (get this key opts) = Err (Error message)
           /\ JsString.includes message "not implemented" = true)
        /\ (forall e, w _ (GetKeyMetadata ref) = Err e ->
              run w (getWithMetadata this key opts) = Err e)
        /\ (forall metadata, w _ (GetKeyMetadata ref) = Ok metadata ->
              exists message,
                run w (getWithMetadata this key opts) = Err (Error message)
                /\ JsString.includes message "not implemented" = true))
  /\ (forall bytes,
        w _ (GetKeyValue ref) = Ok (Some bytes) ->
        (opts ≫= opts_type = Some "arrayBuffer" ->
           run w (get this key opts) = Ok (Some (ArrayBuffer bytes)))
        /\ (opts ≫= opts_type = Some "json" ->
            run w (get this key opts) =
            match JSON_parse (Bytes_utf8 bytes) with
            | Ok parsed => Ok (Some (JsonObject parsed))
            | Err e => Err e
            end)).
Proof.
  intros ref. split; [apply get_absent | split].
  - intros bytes Hvalue Hbuffer Hjson.
    apply type_is_other in Hbuffer, Hjson.
    unfold get, getWithMetadata. fold ref.
    rewrite !run_bind, !run_call, Hvalue.
    split; [|split].
    + rewrite Hbuffer, Hjson. eexists. split; [reflexivity|].
      apply JsStringFacts.includes_true.
      by exists "ApiKVNamespace.get ",
                (". key=string " +:+ key +:+ ", opts=" +:+ JSON_stringify_opts opts).
    + intros e He. by rewrite run_bind, run_call, He.
    + intros metadata Hmeta. rewrite run_bind, run_call, Hmeta, Hbuffer, Hjson.
      eexists. split; [reflexivity|].
      apply JsStringFacts.includes_true.
      by exists "ApiKVNamespace.getWithMetadata ",
                (". key=" +:+ key +:+ " opts=" +:+ JSON_stringify_opts opts).
  - intros bytes Hvalue. unfold get. fold ref. rewrite run_bind, run_call, Hvalue.
    split.
    + intros Hty. apply type_is_exactly in Hty. by rewrite Hty.
    + intros Hty.
      assert (type_is opts "arrayBuffer" = false) as ->.
      { apply type_is_other. rewrite Hty. discriminate. }
      apply type_is_exactly in Hty. rewrite Hty, run_bind, run_lift.
      by destruct (JSON_parse (Bytes_utf8 bytes)).
Qed.

End KVFacts.

(** C7, as the claim states it, fails: no two operations are exactly the ones
    that raise a "not implemented" error for every input, because three
    operations do. *)
Lemma exactly_two_unimplemented_fails :
  ~ exists ops : list KVOperation,
      NoDup ops /\ length ops = 2
      /\ forall op, op ∈ ops <-> always_unimplemented (H := Examples.kv_deps) op.
Proof.
  intros (ops & Hnodup & Hlen & Hops).
  destruct (three_always_unimplemented (H := Examples.kv_deps))
    as (Hput & Hdelete & Hlist).
  apply Hops in Hput, Hdelete, Hlist.
  destruct ops as [|a [|b [|c ops]]]; try discriminate Hlen.
  apply list_elem_of_In in Hput, Hdelete, Hlist. simpl in *.
  destruct Hput as [?|[?|[]]], Hdelete as [?|[?|[]]], Hlist as [?|[?|[]]];
    congruence.
Qed.

Lemma unimplemented_operations_witness :
  always_unimplemented (H := Examples.kv_deps) OpList
  /\ ~ always_unimplemented (H := Examples.kv_deps) OpGet.
Proof.
  destruct (unimplemented_operations (H := Examples.kv_deps)) as [Hops _].
  split.
  - apply (Hops OpList). right. right. left.
  - intros Hall. apply (Hops OpGet) in Hall.
    apply list_elem_of_In in Hall.
    destruct Hall as [?|[?|[?|[]]]]; discriminate.
Defined.

(** C10, as the claim states it, fails: with a value for the key and a
    metadata read that fails, [getWithMetadata] without options raises the
    error of the metadata read, which is no "not implemented" error. *)
Lemma getWithMetadata_metadata_failure :
  Examples.world Examples.metadata_down _
    (GetKeyValue (mkKeyRef "acc" "ns" "k" "tok")) = Ok (Some [])
  /\ ~ exists message,
       run (Examples.world Examples.metadata_down)
           (ApiKVNamespace.getWithMetadata (H := Examples.kv_deps)
              Examples.namespace "k" None)
       = Err (Error message)
       /\ JsString.includes message "not implemented" = true.
Proof.
  split; [reflexivity|]. intros (message & Hrun & _).
  vm_compute in Hrun. discriminate Hrun.
Qed.

Lemma get_null_or_unimplemented_witness :
  run (Examples.world Examples.metadata_down)
      (ApiKVNamespace.getWithMetadata (H := Examples.kv_deps) Examples.namespace "k" None)
  = Err (Foreign "CloudflareApiError" "getKeyMetadata failed").
Proof.
  destruct (get_null_or_unimplemented (H := Examples.kv_deps)
              (Examples.world Examples.metadata_down) Examples.namespace "k" None)
    as (_ & Hpresent & _).
  destruct (Hpresent [] eq_refl ltac:(discriminate) ltac:(discriminate))
    as (_ & Hfails & _).
  exact (Hfails _ eq_refl).
Defined.

(** ** Placeholders in text bindings *)

Module BindingFacts.
Import JsString JsStringFacts ConfigLoader.

#[local] Arguments String.append !_ _ / : simpl nomatch.

(** Where two patterns occur in one string, one occurrence ends before the
    other starts, or one starts inside the other. *)
Lemma two_occurrences P Q u w x y :
  u +:+ P +:+ w = x +:+ Q +:+ y ->
  (exists k, u = x +:+ Q +:+ k /\ y = k +:+ P +:+ w)
  \/ (exists k, x = u +:+ P +:+ k /\ w = k +:+ Q +:+ y)
  \/ (exists k k', P = k +:+ k' /\ k' <> "" /\ x = u +:+ k /\ k' +:+ w = Q +:+ y)
  \/ (exists k k', Q = k +:+ k' /\ k <> "" /\ k' <> "" /\ u = x +:+ k
                   /\ k' +:+ y = P +:+ w).
Proof.
  intros Heq.
  destruct (append_eq_append _ _ _ _ Heq) as [k [[-> Hk]|[-> Hk]]].
  - destruct (append_eq_append _ _ _ _ Hk) as [k2 [[HQ Hk2]|[-> ->]]].
    + destruct k2 as [|c2 k2].
      * left. exists "". rewrite append_nil_r in HQ. subst k.
        split; [by rewrite append_nil_r | done].
      * destruct k as [|c k].
        -- simpl in HQ. subst Q. rewrite append_nil_r.
           destruct P as [|p P].
           ++ right. left. exists "". simpl in *. by rewrite append_nil_r.
           ++ right. right. left. exists "", (String p P).
              split; [done|]. split; [done|]. split; [by rewrite append_nil_r | done].
        -- right. right. right. exists (String c k), (String c2 k2).
           by repeat split.
    + left. by exists k2.
  - destruct (append_eq_append _ _ _ _ Hk) as [k2 [[HP Hk2]|[-> ->]]].
    + destruct k2 as [|c2 k2].
      * right. left. exists "". rewrite append_nil_r in HP. subst k.
        split; [by rewrite append_nil_r | done].
      * right. right. left. exists k, (String c2 k2). by repeat split.
    + right. left. by exists k2.
Qed.

(** The splits of a string literal, one after the other. *)
Ltac each_split k Hsplit Hrest :=
  repeat (destruct k as [|? k]; cbn in Hsplit;
          [ subst; cbn in Hrest; try congruence
          | first [discriminate Hsplit | injection Hsplit as <- Hsplit] ]).

(** The two placeholders do not overlap, neither each other nor
    themselves. *)
Lemma placeholders_apart P Q u w x y :
  P = LOCAL_PORT \/ P = PUSH_ID ->
  Q = LOCAL_PORT \/ Q = PUSH_ID ->
  u +:+ P +:+ w = x +:+ Q +:+ y ->
  (exists k, u = x +:+ Q +:+ k /\ y = k +:+ P +:+ w)
  \/ (exists k, x = u +:+ P +:+ k /\ w = k +:+ Q +:+ y)
  \/ (P = Q /\ u = x /\ w = y).
Proof.
  intros HP HQ Heq.
  destruct (two_occurrences _ _ _ _ _ _ Heq)
    as [Hbefore|[Hafter|[(k & k' & Hsplit & Hne & -> & Hrest)
                        |(k & k' & Hsplit & Hne & Hne' & -> & Hrest)]]];
    [by left | by right; left | |].
  - right. right.
    destruct HP as [-> | ->], HQ as [-> | ->]; unfold LOCAL_PORT, PUSH_ID in *;
      each_split k Hsplit Hrest.
    all: try (injection Hrest as ->; by rewrite append_nil_r).
    all: try done.
  - exfalso.
    destruct HP as [-> | ->], HQ as [-> | ->]; unfold LOCAL_PORT, PUSH_ID in *;
      each_split k Hsplit Hrest; done.
Qed.

Lemma placeholder_length Q :
  Q = LOCAL_PORT \/ Q = PUSH_ID -> 0 < String.length Q.
Proof. intros [-> | ->]; simpl; lia. Qed.

Lemma includes_middle x pat y : includes (x +:+ pat +:+ y) pat = true.
Proof. apply includes_true. by exists x, y. Qed.

(** Cutting at the first of two occurrences of a placeholder leaves the
    later one in the text after the cut. *)
Lemma later_occurrence Q s b a x y z :
  Q = LOCAL_PORT \/ Q = PUSH_ID ->
  cut Q s = Some (b, a) ->
  s = x +:+ Q +:+ y +:+ Q +:+ z ->
  includes a Q = true.
Proof.
  intros HQ Hcut Hs.
  pose proof (cut_first _ _ _ _ _ _ Hcut Hs) as Hfirst.
  pose proof (placeholder_length Q HQ) as Hlen.
  apply cut_Some in Hcut. rewrite Hs in Hcut.
  assert (b +:+ Q +:+ a = (x +:+ Q +:+ y) +:+ Q +:+ z) as Heq.
  { by rewrite <- Hcut, !append_assoc. }
  destruct (placeholders_apart _ _ _ _ _ _ HQ HQ Heq)
    as [(k & -> & _)|[(k & _ & ->)|(_ & -> & _)]].
  - rewrite !length_append in Hfirst. lia.
  - apply includes_middle.
  - rewrite !length_append in Hfirst. lia.
Qed.

(** Replacing an occurrence of one placeholder keeps the occurrences of the
    other one. *)
Lemma other_placeholder_stays P Q b a E :
  P = LOCAL_PORT \/ P = PUSH_ID ->
  Q = LOCAL_PORT \/ Q = PUSH_ID ->
  P <> Q ->
  includes (b +:+ P +:+ a) Q = true ->
  includes (b +:+ E +:+ a) Q = true.
Proof.
  intros HP HQ Hne Hin. apply includes_true in Hin as (x & y & Heq).
  destruct (placeholders_apart _ _ _ _ _ _ HP HQ Heq)
    as [(k & -> & _)|[(k & _ & ->)|(? & _)]]; [| |done].
  - rewrite !append_assoc. apply includes_middle.
  - apply includes_true. exists (b +:+ E +:+ k), y. by rewrite !append_assoc.
Qed.

Lemma other_placeholder_stays_twice P Q b a E x y z :
  P = LOCAL_PORT \/ P = PUSH_ID ->
  Q = LOCAL_PORT \/ Q = PUSH_ID ->
  P <> Q ->
  b +:+ P +:+ a = x +:+ Q +:+ y +:+ Q +:+ z ->
  exists x' y' z', b +:+ E +:+ a = x' +:+ Q +:+ y' +:+ Q +:+ z'.
Proof.
  intros HP HQ Hne Heq.
  destruct (placeholders_apart _ _ _ _ _ _ HP HQ Heq)
    as [(k & -> & Hrest)|[(k & _ & ->)|(? & _)]]; [| |done].
  - symmetry in Hrest.
    destruct (placeholders_apart _ _ _ _ _ _ HP HQ Hrest)
      as [(k2 & -> & _)|[(k2 & -> & ->)|(? & _)]]; [| |done].
    + exists x, y, (k2 +:+ E +:+ a). by rewrite !append_assoc.
    + exists x, (k +:+ E +:+ k2), z. by rewrite !append_assoc.
  - exists (b +:+ E +:+ k), y, z. by rewrite !append_assoc.
Qed.

(** C5: resolving a text binding fails exactly when the value holds
    [${localPort}] and no port is given, or when the value after the port
    step holds [${pushId}] and no push id is given; with a port the first
    [${localPort}] of the value gives way to the port in decimal. *)
Theorem resolveBinding_text (value : string) (localPort : option N)
    (pushId : option string) :
  let substituted :=
    match localPort with
    | Some port => replace value LOCAL_PORT (ofNumber port)
    | None => value
    end in
  ((exists e, resolveBinding (TextBinding value) localPort pushId = Throw e) <->
   (includes value LOCAL_PORT = true /\ localPort = None)
   \/ (includes substituted PUSH_ID = true /\ pushId = None))
  /\ (forall port before after,
        localPort = Some port ->
        cut LOCAL_PORT value = Some (before, after) ->
        substituted = before +:+ ofNumber port +:+ after
        /\ (forall id, pushId = Some id ->
              resolveBinding (TextBinding value) localPort pushId =
              Ret (TextBinding (replace (before +:+ ofNumber port +:+ after) PUSH_ID id)))
        /\ (pushId = None ->
            includes (before +:+ ofNumber port +:+ after) PUSH_ID = false ->
            resolveBinding (TextBinding value) localPort pushId =
            Ret (TextBinding (before +:+ ofNumber port +:+ after)))).
Proof.
  intros substituted. split.
  - subst substituted. unfold resolveBinding.
    destruct localPort as [port|], pushId as [id|];
      cbn [mbind mret Prog_bind Prog_ret bind].
    + split; [by intros [e [=]] | intros [[_ [=]]|[_ [=]]]].
    + destruct (includes (replace value LOCAL_PORT (ofNumber port)) PUSH_ID).
      * split; [intros _; by right | intros _; by eexists].
      * split; [by intros [e [=]] | intros [[_ [=]]|[[=] _]]].
    + destruct (includes value LOCAL_PORT);
        cbn [mbind mret Prog_bind Prog_ret bind].
      * split; [intros _; by left | intros _; by eexists].
      * split; [by intros [e [=]] | intros [[[=] _]|[_ [=]]]].
    + destruct (includes value LOCAL_PORT);
        cbn [mbind mret Prog_bind Prog_ret bind].
      * split; [intros _; by left | intros _; by eexists].
      * destruct (includes value PUSH_ID).
        -- split; [intros _; by right | intros _; by eexists].
        -- split; [by intros [e [=]] | intros [[[=] _]|[[=] _]]].
  - intros port before after -> Hcut. subst substituted.
    rewrite (replace_by_number _ _ port _ _ Hcut). split; [done|].
    unfold resolveBinding. cbn [mbind mret Prog_bind Prog_ret bind].
    rewrite (replace_by_number _ _ port _ _ Hcut). split.
    + by intros id ->.
    + by intros -> ->.
Qed.


Lemma includes_after b a pat : includes a pat = true -> includes (b +:+ a) pat = true.
Proof.
  intros Hin. apply includes_true in Hin as (x & y & ->).
  apply includes_true. exists (b +:+ x), y. by rewrite append_assoc.
Qed.

(** C9: with a port (a push id) only the first [${localPort}]
    ([${pushId}]) of the value is substituted; an occurrence after it is
    still in the resolved value. *)
Theorem resolveBinding_first_only (value : string) (localPort : option N)
    (pushId : option string) (result : string) :
  resolveBinding (TextBinding value) localPort pushId = Ret (TextBinding result) ->
  (forall port x y z,
     localPort = Some port ->
     value = x +:+ LOCAL_PORT +:+ y +:+ LOCAL_PORT +:+ z ->
     exists before after,
       cut LOCAL_PORT value = Some (before, after)
       /\ includes after LOCAL_PORT = true
       /\ result = match pushId with
                   | Some id => replace (before +:+ ofNumber port +:+ after) PUSH_ID id
                   | None => before +:+ ofNumber port +:+ after
                   end
       /\ includes result LOCAL_PORT = true)
  /\ (forall id x y z,
        pushId = Some id ->
        value = x +:+ PUSH_ID +:+ y +:+ PUSH_ID +:+ z ->
        exists before after,
          cut PUSH_ID match localPort with
                      | Some port => replace value LOCAL_PORT (ofNumber port)
                      | None => value
                      end = Some (before, after)
          /\ includes after PUSH_ID = true
          /\ result = before +:+ GetSubstitution PUSH_ID before after id +:+ after
          /\ includes result PUSH_ID = true).
Proof.
  intros Hret. split.
  - intros port x y z -> Hvalue.
    destruct (includes_cut value LOCAL_PORT) as (before & after & Hcut).
    { rewrite Hvalue. apply includes_middle. }
    pose proof (later_occurrence _ _ _ _ _ _ _ (or_introl eq_refl) Hcut Hvalue) as Hlater.
    exists before, after. split; [done|]. split; [done|].
    unfold resolveBinding in Hret. cbn [mbind mret Prog_bind Prog_ret bind] in Hret.
    rewrite (replace_by_number _ _ port _ _ Hcut) in Hret.
    assert (includes (before +:+ ofNumber port +:+ after) LOCAL_PORT = true) as Hstill.
    { by do 2 apply includes_after. }
    destruct pushId as [id|].
    + injection Hret as <-. split; [done|].
      destruct (cut PUSH_ID (before +:+ ofNumber port +:+ after))
        as [[before' after']|] eqn:Hcut'.
      * rewrite (replace_cut _ _ _ _ _ Hcut').
        apply cut_Some in Hcut'. rewrite Hcut' in Hstill.
        by apply (other_placeholder_stays PUSH_ID LOCAL_PORT);
          [right | left | discriminate |].
      * by rewrite replace_absent by by apply includes_false.
    + destruct (includes (before +:+ ofNumber port +:+ after) PUSH_ID);
        [discriminate Hret|].
      by injection Hret as <-.
  - intros id x y z -> Hvalue.
    set (substituted := match localPort with
                        | Some port => replace value LOCAL_PORT (ofNumber port)
                        | None => value
                        end).
    assert (resolveBinding (TextBinding value) localPort (Some id) =
            Ret (TextBinding (replace substituted PUSH_ID id))) as Hshape.
    { subst substituted. unfold resolveBinding in *.
      destruct localPort as [port|]; [done|].
      by destruct (includes value LOCAL_PORT). }
    rewrite Hshape in Hret. injection Hret as <-.
    assert (exists x' y' z', substituted = x' +:+ PUSH_ID +:+ y' +:+ PUSH_ID +:+ z')
      as (x' & y' & z' & Htwice).
    { subst substituted. destruct localPort as [port|]; [|by exists x, y, z].
      destruct (cut LOCAL_PORT value) as [[before after]|] eqn:Hcut.
      - rewrite (replace_by_number _ _ port _ _ Hcut).
        apply cut_Some in Hcut. rewrite Hvalue in Hcut. symmetry in Hcut.
        by apply (other_placeholder_stays_twice LOCAL_PORT PUSH_ID _ _ _ x y z);
          [left | right | discriminate |].
      - rewrite replace_absent by by apply includes_false.
        by exists x, y, z. }
    destruct (includes_cut substituted PUSH_ID) as (before & after & Hcut).
    { rewrite Htwice. apply includes_middle. }
    pose proof (later_occurrence _ _ _ _ _ _ _ (or_intror eq_refl) Hcut Htwice) as Hlater.
    exists before, after. split; [done|]. split; [done|].
    rewrite (replace_cut _ _ _ _ _ Hcut). split; [done|].
    by do 2 apply includes_after.
Qed.

End BindingFacts.

Lemma resolveBinding_text_witness :
  ConfigLoader.resolveBinding (TextBinding "http://localhost:${localPort}/") (Some 8080%N) None
  = Ret (TextBinding "http://localhost:8080/").
Proof.
  destruct (BindingFacts.resolveBinding_text
              "http://localhost:${localPort}/" (Some 8080%N) None) as [_ Hport].
  destruct (Hport 8080%N "http://localhost:" "/" eq_refl eq_refl) as (_ & _ & Hnone).
  exact (Hnone eq_refl eq_refl).
Defined.

Lemma resolveBinding_first_only_witness :
  JsString.includes "8080 ${localPort} 7" ConfigLoader.LOCAL_PORT = true.
Proof.
  destruct (BindingFacts.resolveBinding_first_only
              "${localPort} ${localPort} ${pushId}" (Some 8080%N) (Some "7")
              "8080 ${localPort} 7" eq_refl) as [Hport _].
  destruct (Hport 8080%N "" " " " ${pushId}" eq_refl eq_refl)
    as (before & after & _ & _ & _ & Hstill).
  exact Hstill.
Defined.

(** ** Loading the config *)

Section ConsultFacts.
Context {A B : Type}.

Lemma consults_bind (w : World) (name : string) (p : Prog A) (f : A -> Prog B) :
  consults w name (p ≫= f) <->
  consults w name p \/ exists a, run w p = Ok a /\ consults w name (f a).
Proof.
  change (p ≫= f) with (bind p f).
  induction p as [a|e|T ev k IH]; simpl.
  - split; [intros Hc; right; by exists a | by intros [[]|(a' & [= ->] & Hc)]].
  - split; [done | by intros [[]|(a' & [=] & _)]].
  - rewrite IH. tauto.
Qed.

Lemma consults_try_catch (w : World) (name : string) (p : Prog A)
    (handler : Exn -> Prog A) :
  consults w name (try_catch p handler) <->
  consults w name p \/ exists e, run w p = Err e /\ consults w name (handler e).
Proof.
  induction p as [a|e|T ev k IH]; simpl.
  - split; [done | by intros [[]|(e & [=] & _)]].
  - split; [intros Hc; right; by exists e | by intros [[]|(e' & [= ->] & Hc)]].
  - rewrite IH. tauto.
Qed.

Lemma consults_resume (w : World) (name : string) (r : Result A) :
  ~ consults w name (resume r).
Proof. destruct r; simpl; tauto. Qed.

End ConsultFacts.

Section LoadFacts.
Context `{CliDeps}.
Import ConfigLoader.

(** [resolve(dir, '..')] is [dir] at the root only, where the walk of
    [findConfigFilePath] stops. *)
Lemma resolve_parent_fixed (dir : Dir) : resolve_parent dir = dir <-> dir = [].
Proof.
  split; [|by intros ->]. destruct dir as [|seg parent]; [done|].
  unfold resolve_parent. simpl. intros Heq.
  apply (f_equal length) in Heq. simpl in Heq. lia.
Qed.

Lemma findConfigFilePath_walk_unfold (dir : Dir) :
  findConfigFilePath_walk dir =
  (found ← call (FileExists (Dir_toString (join dir CONFIG_FILE_NAME)));
   if found : bool then mret (Some (Dir_toString (join dir CONFIG_FILE_NAME)))
   else
     match dir with
     | [] => mret None
     | _ :: parentDir => findConfigFilePath_walk parentDir
     end).
Proof. by destruct dir. Qed.

(** The walk up the directories ends with the first error of a look-up. *)
Lemma findConfigFilePath_walk_fails (w : World) (dir : Dir) (n : nat) (e : Exn) :
  n <= length dir ->
  (forall i, i < n ->
     w _ (FileExists (Dir_toString (join (drop i dir) CONFIG_FILE_NAME))) = Ok false) ->
  w _ (FileExists (Dir_toString (join (drop n dir) CONFIG_FILE_NAME))) = Err e ->
  run w (findConfigFilePath_walk dir) = Err e.
Proof.
  revert dir. induction n as [|n IH]; intros dir Hlen Hmiss Hfail.
  - rewrite findConfigFilePath_walk_unfold, run_bind, run_call.
    rewrite drop_0 in Hfail. by rewrite Hfail.
  - destruct dir as [|seg parent]; [simpl in Hlen; lia|].
    rewrite findConfigFilePath_walk_unfold, run_bind, run_call.
    pose proof (Hmiss 0 ltac:(lia)) as Hhere. rewrite drop_0 in Hhere.
    rewrite Hhere. apply IH.
    + simpl in Hlen. lia.
    + intros i Hi. apply (Hmiss (S i)). lia.
    + exact Hfail.
Qed.

Lemma findConfigFilePath_walk_quiet (w : World) (name : string) (dir : Dir) :
  ~ consults w name (findConfigFilePath_walk dir).
Proof.
  induction dir as [|seg parent IH];
    rewrite findConfigFilePath_walk_unfold, consults_bind;
    (intros [[[]|Hc]|(found & _ & Hc)]; [by apply consults_resume in Hc|]);
    by destruct found.
Qed.

Lemma loadedConfig_quiet (w : World) (name : string) (options : gmap string JsValue) :
  ~ consults w name (loadedConfig options).
Proof.
  unfold loadedConfig. rewrite consults_bind.
  intros [Hc|(configFilePath & _ & Hc)].
  - destruct (options !! "config") as [[s| | |]|];
      try destruct (Nat.ltb 0 (String.length (JsString.trim s)));
      try done;
      unfold findConfigFilePath in Hc;
      apply consults_try_catch in Hc as [Hc|(e & _ & Hc)];
      try (by destruct e);
      apply consults_bind in Hc as [[[]|Hc]|(dir & _ & Hc)];
      try (by apply consults_resume in Hc);
      by apply findConfigFilePath_walk_quiet in Hc.
  - destruct configFilePath as [p|]; [|done].
    destruct (JsString.truthy p); [|done].
    unfold loadConfigFromFile in Hc.
    apply consults_try_catch in Hc as [Hc|(e & _ & Hc)]; [|done].
    apply consults_bind in Hc as [[[]|Hc]|(jsonc & _ & Hc)];
      [by apply consults_resume in Hc|].
    destruct (parseJsonc jsonc) as [config errors].
    destruct (Nat.ltb 0 (length errors)); [done|].
    by apply consults_resume in Hc.
Qed.

Lemma or_else_empty (s : string) : JsString.or_else s "" = s.
Proof. by destruct s. Qed.

Lemma length_positive (s : string) : s <> "" -> Nat.ltb 0 (String.length s) = true.
Proof. by destruct s. Qed.

(** C6: [loadConfig] reads an environment variable only when the loaded
    config has no profile, and then only [CF_ACCOUNT_ID] and
    [CF_API_TOKEN]; with both non-empty after trimming the config gets the
    one profile [env] made of the trimmed values; a loaded config with a
    profile is returned as it is. *)
Theorem loadConfig_env (w : World) (options : gmap string JsValue) :
  (forall name,
     consults w name (loadConfig options) ->
     (name = "CF_ACCOUNT_ID" \/ name = "CF_API_TOKEN")
     /\ exists config,
          run w (loadedConfig options) = Ok config
          /\ size (profiles_of config) = 0)
  /\ (forall config,
        run w (loadedConfig options) = Ok config ->
        (size (profiles_of config) <> 0 ->
           run w (loadConfig options) = Ok config)
        /\ (size (profiles_of config) = 0 ->
            forall a t,
              w _ (EnvGet "CF_ACCOUNT_ID") = Ok a ->
              w _ (EnvGet "CF_API_TOKEN") = Ok t ->
              JsString.trim (default "" a) <> "" ->
              JsString.trim (default "" t) <> "" ->
              run w (loadConfig options) =
              Ok (mkConfig (config_scripts config)
                    (Some {[ "env" := mkProfile (JsString.trim (default "" a))
                                                (JsString.trim (default "" t)) None ]})))).
Proof.
  split.
  - intros name Hc. unfold loadConfig in Hc.
    apply consults_bind in Hc as [Hc|(config & Hloaded & Hc)];
      [by apply loadedConfig_quiet in Hc|].
    unfold enhanceWithEnv in Hc.
    destruct (Nat.eqb_spec (size (profiles_of config)) 0) as [Hsize|_]; [|done].
    apply consults_try_catch in Hc as [Hc|(e & _ & Hc)]; [|by destruct e].
    apply consults_bind in Hc as [[Hname|Hc]|(a & _ & Hc)];
      [split; [by left | by exists config]
      | by apply consults_resume in Hc |].
    apply consults_bind in Hc as [[Hname|Hc]|(t & _ & Hc)];
      [split; [by right | by exists config]
      | by apply consults_resume in Hc |].
    by destruct (_ && _).
  - intros config Hloaded. unfold loadConfig. rewrite run_bind, Hloaded.
    unfold enhanceWithEnv. split.
    + intros Hsize. by destruct (Nat.eqb_spec (size (profiles_of config)) 0).
    + intros -> a t Ha Ht Haccount Htoken. cbn [Nat.eqb].
      rewrite run_try_catch, run_bind, run_call, Ha, run_bind, run_call, Ht.
      rewrite !or_else_empty, !length_positive by done. done.
Qed.

(** C8: a permission-denied error of a read of [CF_ACCOUNT_ID] or
    [CF_API_TOKEN] leaves the loaded config as it is, and one of
    [Deno.cwd] or of a look-up on the walk up the directories makes
    [findConfigFilePath] return [undefined]; every other error of these
    reads is thrown again. *)
Theorem permission_denied_is_absent (w : World) :
  (forall options config e,
     run w (loadedConfig options) = Ok config ->
     size (profiles_of config) = 0 ->
     w _ (EnvGet "CF_ACCOUNT_ID") = Err e
     \/ (exists a, w _ (EnvGet "CF_ACCOUNT_ID") = Ok a
                   /\ w _ (EnvGet "CF_API_TOKEN") = Err e) ->
     run w (loadConfig options) =
     match e with PermissionDenied _ => Ok config | _ => Err e end)
  /\ (forall verbose e,
        w _ Cwd = Err e ->
        run w (findConfigFilePath verbose) =
        match e with PermissionDenied _ => Ok None | _ => Err e end)
  /\ (forall verbose dir n e,
        w _ Cwd = Ok dir ->
        n <= length dir ->
        (forall i, i < n ->
           w _ (FileExists (Dir_toString (join (drop i dir) CONFIG_FILE_NAME)))
           = Ok false) ->
        w _ (FileExists (Dir_toString (join (drop n dir) CONFIG_FILE_NAME))) = Err e ->
        run w (findConfigFilePath verbose) =
        match e with PermissionDenied _ => Ok None | _ => Err e end).
Proof.
  split; [|split].
  - intros options config e Hloaded Hsize Hread.
    unfold loadConfig. rewrite run_bind, Hloaded.
    unfold enhanceWithEnv. rewrite Hsize. cbn [Nat.eqb].
    rewrite run_try_catch, run_bind, run_call.
    destruct Hread as [-> | (a & -> & Htoken)].
    + by destruct e.
    + rewrite run_bind, run_call, Htoken. by destruct e.
  - intros verbose e Hcwd. unfold findConfigFilePath.
    rewrite run_try_catch, run_bind, run_call, Hcwd. by destruct e.
  - intros verbose dir n e Hcwd Hlen Hmiss Hfail. unfold findConfigFilePath.
    rewrite run_try_catch, run_bind, run_call, Hcwd.
    rewrite (findConfigFilePath_walk_fails w dir n e Hlen Hmiss Hfail).
    by destruct e.
Qed.

End LoadFacts.

Lemma loadConfig_env_witness :
  run (Examples.world Examples.with_env)
      (ConfigLoader.loadConfig (H := Examples.cli_deps) ∅)
  = Ok (mkConfig None (Some {[ "env" := mkProfile "acc-1" "tok-1" None ]})).
Proof.
  assert (run (Examples.world Examples.with_env)
              (ConfigLoader.loadedConfig (H := Examples.cli_deps) ∅)
          = Ok (mkConfig None None)) as Hloaded by (vm_compute; reflexivity).
  destruct (loadConfig_env (H := Examples.cli_deps)
              (Examples.world Examples.with_env) ∅) as [_ Hreturned].
  destruct (Hreturned _ Hloaded) as [_ Hempty].
  exact (Hempty eq_refl (Some " acc-1 ") (Some "tok-1") eq_refl eq_refl
           ltac:(discriminate) ltac:(discriminate)).
Defined.

Lemma permission_denied_is_absent_witness :
  run (Examples.world Examples.env_denied)
      (ConfigLoader.loadConfig (H := Examples.cli_deps) ∅)
  = Ok (mkConfig None None)
  /\ run (Examples.world Examples.walk_denied)
         (ConfigLoader.findConfigFilePath false)
     = Ok None.
Proof.
  destruct (permission_denied_is_absent (H := Examples.cli_deps)
              (Examples.world Examples.env_denied)) as (Henv & _ & _).
  destruct (permission_denied_is_absent (H := Examples.cli_deps)
              (Examples.world Examples.walk_denied)) as (_ & _ & Hwalk).
  assert (run (Examples.world Examples.env_denied)
              (ConfigLoader.loadedConfig (H := Examples.cli_deps) ∅)
          = Ok (mkConfig None None)) as Hloaded by (vm_compute; reflexivity).
  split.
  - exact (Henv ∅ _ (PermissionDenied "Requires env access") Hloaded eq_refl
             (or_introl eq_refl)).
  - apply (Hwalk false ["project"; "home"] 1
             (PermissionDenied "Requires read access") eq_refl).
    + simpl. lia.
    + intros i Hi. assert (i = 0) as -> by lia. reflexivity.
    + reflexivity.
Defined.

(** ** The walk of [findConfigFilePath] returns *)

Section WalkFacts.
Import ConfigLoader.

(** The first directory on the way up that holds the file gives the path. *)
Lemma findConfigFilePath_walk_finds (w : World) (dir : Dir) (n : nat) :
  n <= length dir ->
  (forall i, i < n ->
     w _ (FileExists (Dir_toString (join (drop i dir) CONFIG_FILE_NAME))) = Ok false) ->
  w _ (FileExists (Dir_toString (join (drop n dir) CONFIG_FILE_NAME))) = Ok true ->
  run w (findConfigFilePath_walk dir)
  = Ok (Some (Dir_toString (join (drop n dir) CONFIG_FILE_NAME))).
Proof.
  revert dir. induction n as [|n IH]; intros dir Hlen Hmiss Hhit.
  - rewrite findConfigFilePath_walk_unfold, run_bind, run_call.
    rewrite drop_0 in Hhit. by rewrite Hhit, drop_0.
  - destruct dir as [|seg parent]; [simpl in Hlen; lia|].
    rewrite findConfigFilePath_walk_unfold, run_bind, run_call.
    pose proof (Hmiss 0 ltac:(lia)) as Hhere. rewrite drop_0 in Hhere.
    rewrite Hhere. apply IH.
    + simpl in Hlen. lia.
    + intros i Hi. apply (Hmiss (S i)). lia.
    + exact Hhit.
Qed.

(** Without the file in any directory up to the root the walk ends with
    [undefined]. *)
Lemma findConfigFilePath_walk_none (w : World) (dir : Dir) :
  (forall i, i <= length dir ->
     w _ (FileExists (Dir_toString (join (drop i dir) CONFIG_FILE_NAME))) = Ok false) ->
  run w (findConfigFilePath_walk dir) = Ok None.
Proof.
  induction dir as [|seg parent IH]; intros Hmiss;
    rewrite findConfigFilePath_walk_unfold, run_bind, run_call;
    pose proof (Hmiss 0 ltac:(lia)) as Hhere; rewrite drop_0 in Hhere;
    rewrite Hhere; [done|].
  apply IH. intros i Hi. apply (Hmiss (S i)). simpl. lia.
Qed.

End WalkFacts.

(** ** Examples *)

Example replace_first_only :
  JsString.replace "a${x}b${x}" "${x}" "12" = "a12b${x}".
Proof. reflexivity. Qed.

Example replace_patterns :
  JsString.replace "a${x}b${x}" "${x}" "[$$|$&|$`|$'|$1]"
  = "a[$|${x}|a|b${x}|$1]b${x}".
Proof. reflexivity. Qed.

Example trim_both_ends : JsString.trim "  a b  " = "a b".
Proof. reflexivity. Qed.

Example ofNumber_decimal :
  JsString.ofNumber 8080 = "8080" /\ JsString.ofNumber 0 = "0".
Proof. split; reflexivity. Qed.

Example split_lines : JsString.split "," "a,b,,c," = ["a"; "b"; ""; "c"; ""].
Proof. reflexivity. Qed.

Example fetch_root_page :
  TailwebWorker.fetch (H := Examples.worker_deps)
    (mkRequest "GET" "https://tail.example/" [])
  = Ret (mkResponse 200 [("Content-Type", "text/html; charset=utf-8")]
                    "<!DOCTYPE html> https://tail.example/image.jpg https://tail.example/page https://tail.example/page </html>").
Proof. reflexivity. Qed.

Example fetch_hello :
  TailwebWorker.fetch (H := Examples.worker_deps)
    (mkRequest "GET" "https://tail.example/other" [("cf-connecting-ip", "203.0.113.7")])
  = Ret (mkResponse 200 [] "hello 203.0.113.7").
Proof. reflexivity. Qed.

Example fetch_invalid_target :
  TailwebWorker.fetch (H := Examples.worker_deps)
    (mkRequest "GET" "https://tail.example/fetch/" [])
  = Throw (Foreign "TypeError" "Invalid URL").
Proof. reflexivity. Qed.

Example resolveBinding_without_port :
  ConfigLoader.resolveBinding (TextBinding "http://localhost:${localPort}/") None (Some "7")
  = Throw (Error "Cannot resolve: localPort").
Proof. reflexivity. Qed.

Example resolveBinding_both :
  ConfigLoader.resolveBinding (TextBinding "${pushId}@${localPort} ${pushId}")
    (Some 3000%N) (Some "p1")
  = Ret (TextBinding "p1@3000 ${pushId}").
Proof. reflexivity. Qed.

Example findProfile_named :
  ConfigLoader.findProfile (H := Examples.cli_deps) Examples.config_two
    {[ "profile" := JsStr "b" ]} None
  = Ret (Some (mkProfile "acc-b" "tok-b" (Some false))).
Proof. vm_compute. reflexivity. Qed.

Example findProfile_script_missing :
  ConfigLoader.findProfile (H := Examples.cli_deps) Examples.config_two
    ∅ (Some Examples.script_work)
  = Throw (Error "Unable to find profile undefined in config").
Proof. vm_compute. reflexivity. Qed.

Example loadConfig_bare :
  run (Examples.world Examples.bare) (ConfigLoader.loadConfig (H := Examples.cli_deps) ∅)
  = Ok (mkConfig None None).
Proof. vm_compute. reflexivity. Qed.

Example get_array_buffer :
  run (Examples.world Examples.metadata_down)
      (ApiKVNamespace.get (H := Examples.kv_deps) Examples.namespace "k"
         (Some (mkKVGetOptions (Some "arrayBuffer") None)))
  = Ok (Some (ApiKVNamespace.ArrayBuffer [])).
Proof. reflexivity. Qed.

(* ===================================================================== *)
(** * Part III: further properties of the code                            *)
(* ===================================================================== *)

(** ** Finding and loading the config file *)

Section ConfigFileFacts.
Context `{CliDeps}.
Import ConfigLoader.

Lemma findConfigFilePath_walk_sound (w : World) (dir : Dir) (p : string) :
  run w (findConfigFilePath_walk dir) = Ok (Some p) ->
  exists n,
    n <= length dir
    /\ p = Dir_toString (join (drop n dir) CONFIG_FILE_NAME)
    /\ w _ (FileExists p) = Ok true
    /\ forall i, i < n ->
         w _ (FileExists (Dir_toString (join (drop i dir) CONFIG_FILE_NAME))) = Ok false.
Proof.
  induction dir as [|seg parent IH];
    rewrite findConfigFilePath_walk_unfold, run_bind, run_call.
  - destruct (w _ (FileExists (Dir_toString (join [] CONFIG_FILE_NAME))))
      as [[|]|e] eqn:Hhere; cbn [run mret Prog_ret]; intros Hrun;
      try discriminate Hrun.
    assert (p = Dir_toString (join [] CONFIG_FILE_NAME)) as -> by congruence.
    exists 0.
    split; [simpl; lia|]. split; [done|]. split; [done | intros i Hi; lia].
  - destruct (w _ (FileExists (Dir_toString (join (seg :: parent) CONFIG_FILE_NAME))))
      as [[|]|e] eqn:Hhere; cbn [run mret Prog_ret]; intros Hrun;
      try discriminate Hrun.
    + assert (p = Dir_toString (join (seg :: parent) CONFIG_FILE_NAME)) as ->
        by congruence.
      exists 0.
      split; [simpl; lia|]. split; [done|]. split; [done | intros i Hi; lia].
    + destruct (IH Hrun) as (n & Hn & -> & Hhit & Hmiss).
      exists (S n). split; [simpl; lia|]. split; [done|]. split; [done|].
      intros [|i] Hi; [done|]. apply Hmiss. lia.
Qed.

(** X1: [findConfigFilePath] returns a path exactly when the working
    directory is known and the path is the [.denoflare] of the nearest
    directory, from the working directory up to the root, in which the
    file exists. *)
Theorem findConfigFilePath_nearest (w : World) (verbose : bool) (p : string) :
  run w (findConfigFilePath verbose) = Ok (Some p) <->
  exists dir n,
    w _ Cwd = Ok dir
    /\ n <= length dir
    /\ p = Dir_toString (join (drop n dir) CONFIG_FILE_NAME)
    /\ w _ (FileExists p) = Ok true
    /\ forall i, i < n ->
         w _ (FileExists (Dir_toString (join (drop i dir) CONFIG_FILE_NAME))) = Ok false.
Proof.
  unfold findConfigFilePath. rewrite run_try_catch, run_bind, run_call. split.
  - destruct (w _ Cwd) as [dir|e] eqn:Hcwd.
    + destruct (run w (findConfigFilePath_walk dir)) as [found|e] eqn:Hwalk.
      * intros [= ->]. exists dir.
        destruct (findConfigFilePath_walk_sound _ _ _ Hwalk) as (n & Hn).
        by exists n.
      * by destruct e.
    + by destruct e.
  - intros (dir & n & -> & Hlen & -> & Hhit & Hmiss).
    by rewrite (findConfigFilePath_walk_finds w dir n Hlen Hmiss Hhit).
Qed.

(** X2: when the file is in no directory from the working directory up to
    the root, [findConfigFilePath] returns [undefined]. *)
Theorem findConfigFilePath_none (w : World) (verbose : bool) (dir : Dir) :
  w _ Cwd = Ok dir ->
  (forall i, i <= length dir ->
     w _ (FileExists (Dir_toString (join (drop i dir) CONFIG_FILE_NAME))) = Ok false) ->
  run w (findConfigFilePath verbose) = Ok None.
Proof.
  intros Hcwd Hmiss. unfold findConfigFilePath.
  by rewrite run_try_catch, run_bind, run_call, Hcwd,
       (findConfigFilePath_walk_none w dir Hmiss).
Qed.

Lemma loadConfigFromFile_run (w : World) (path : string) :
  run w (loadConfigFromFile path) =
  match
    match w _ (ReadTextFile path) with
    | Ok jsonc =>
        if Nat.ltb 0 (length (parseJsonc jsonc).2) then
          Err (Error ("Invalid json, error"
                      +:+ (if Nat.ltb 1 (length (parseJsonc jsonc).2) then "s" else "")
                      +:+ "="
                      +:+ JsString.join " "
                            (map (fun v => "(" +:+ formatParseError v jsonc +:+ ")")
                                 (parseJsonc jsonc).2)))
        else checkConfig (parseJsonc jsonc).1
    | Err e => Err e
    end
  with
  | Ok config => Ok config
  | Err e => Err (Error ("Error loading config (path=" +:+ path +:+ "): "
                         +:+ Exn_message e))
  end.
Proof.
  unfold loadConfigFromFile. rewrite run_try_catch, run_bind, run_call.
  destruct (w _ (ReadTextFile path)) as [jsonc|e]; [|done].
  destruct (parseJsonc jsonc) as [config errors]. cbn [fst snd].
  destruct (Nat.ltb 0 (length errors)); [done|].
  rewrite run_lift. by destruct (checkConfig config).
Qed.

(** X3: whatever goes wrong in [loadConfigFromFile] (the read, the
    parse, the check of the config) comes out as one [Error] whose message
    starts with [Error loading config (path=<path>): ]; a permission-denied
    error of the read is among them, it is not taken for a missing file. *)
Theorem loadConfigFromFile_errors (w : World) (path : string) :
  (forall e,
     run w (loadConfigFromFile path) = Err e ->
     exists detail,
       e = Error ("Error loading config (path=" +:+ path +:+ "): " +:+ detail))
  /\ (forall e,
        w _ (ReadTextFile path) = Err e ->
        run w (loadConfigFromFile path) =
        Err (Error ("Error loading config (path=" +:+ path +:+ "): "
                    +:+ Exn_message e)))
  /\ (forall jsonc,
        w _ (ReadTextFile path) = Ok jsonc ->
        (parseJsonc jsonc).2 <> [] ->
        exists errors,
          run w (loadConfigFromFile path) =
          Err (Error ("Error loading config (path=" +:+ path
                      +:+ "): Invalid json, error" +:+ errors))).
Proof.
  rewrite loadConfigFromFile_run. split; [|split].
  - intros e. destruct (match w _ (ReadTextFile path) with Ok _ => _ | Err _ => _ end)
      as [config|e0]; [discriminate|].
    intros [= <-]. by eexists.
  - by intros e ->.
  - intros jsonc -> Herrors.
    destruct ((parseJsonc jsonc).2) as [|err errors]; [done|].
    cbn [length Nat.ltb Nat.leb]. eexists. cbn [Exn_message].
    unfold JsString.or_else. cbn [JsString.truthy String.append]. reflexivity.
Qed.

(** X4: [loadConfigFromFile] returns a config exactly when the file is
    read, the parser reports no error and [checkConfig] accepts the parsed
    value; the config is the one [checkConfig] returns. *)
Theorem loadConfigFromFile_returns (w : World) (path : string) (config : Config) :
  run w (loadConfigFromFile path) = Ok config <->
  exists jsonc,
    w _ (ReadTextFile path) = Ok jsonc
    /\ (parseJsonc jsonc).2 = []
    /\ checkConfig (parseJsonc jsonc).1 = Ok config.
Proof.
  rewrite loadConfigFromFile_run. split.
  - destruct (w _ (ReadTextFile path)) as [jsonc|e]; [|discriminate].
    destruct ((parseJsonc jsonc).2) as [|err errors] eqn:Herrors;
      [|discriminate].
    cbn [length Nat.ltb Nat.leb].
    destruct (checkConfig (parseJsonc jsonc).1) as [c|e] eqn:Hcheck;
      [|discriminate].
    intros [= ->]. exists jsonc. by rewrite Herrors.
  - intros (jsonc & -> & -> & ->). done.
Qed.

Lemma config_path_truthy (dir : Dir) :
  JsString.truthy (Dir_toString (join dir CONFIG_FILE_NAME)) = true.
Proof. unfold join. cbn [Dir_toString]. by destruct (Dir_toString dir). Qed.

(** X5: a config file that is found on the walk but cannot be read makes
    [loadConfig] fail, also when the read is denied for lack of
    permission; the environment is not looked at then. *)
Theorem loadConfig_unreadable_file (w : World) (options : gmap string JsValue)
    (dir : Dir) (n : nat) (e : Exn) :
  options !! "config" = None ->
  w _ Cwd = Ok dir ->
  n <= length dir ->
  (forall i, i < n ->
     w _ (FileExists (Dir_toString (join (drop i dir) CONFIG_FILE_NAME))) = Ok false) ->
  w _ (FileExists (Dir_toString (join (drop n dir) CONFIG_FILE_NAME))) = Ok true ->
  w _ (ReadTextFile (Dir_toString (join (drop n dir) CONFIG_FILE_NAME))) = Err e ->
  run w (loadConfig options) =
    Err (Error ("Error loading config (path="
                +:+ Dir_toString (join (drop n dir) CONFIG_FILE_NAME) +:+ "): "
                +:+ Exn_message e))
  /\ forall name, ~ consults w name (loadConfig options).
Proof.
  intros Hopt Hcwd Hlen Hmiss Hhit Hread.
  assert (run w (loadedConfig options) =
          Err (Error ("Error loading config (path="
                      +:+ Dir_toString (join (drop n dir) CONFIG_FILE_NAME) +:+ "): "
                      +:+ Exn_message e))) as Hloaded.
  { unfold loadedConfig. rewrite Hopt, run_bind.
    unfold findConfigFilePath.
    rewrite run_try_catch, run_bind, run_call, Hcwd,
      (findConfigFilePath_walk_finds w dir n Hlen Hmiss Hhit).
    by rewrite config_path_truthy, loadConfigFromFile_run, Hread. }
  split.
  - unfold loadConfig. by rewrite run_bind, Hloaded.
  - intros name Hc. unfold loadConfig in Hc.
    apply consults_bind in Hc as [Hc|(config & Hok & _)].
    + by apply loadedConfig_quiet in Hc.
    + rewrite Hloaded in Hok. discriminate.
Qed.

(** X6: a [config] option is used trimmed and without any look at the
    directories; an option that is blank or no string counts as not
    given. *)
Theorem loadedConfig_option (options : gmap string JsValue) :
  (forall s,
     options !! "config" = Some (JsStr s) -> JsString.trim s <> "" ->
     loadedConfig options = loadConfigFromFile (JsString.trim s))
  /\ ((forall s, options !! "config" = Some (JsStr s) -> JsString.trim s = "") ->
      loadedConfig options = loadedConfig (delete "config" options)).
Proof.
  split.
  - intros s Hopt Htrim. unfold loadedConfig. rewrite Hopt.
    rewrite length_positive by done.
    cbn [mbind mret Prog_bind Prog_ret bind].
    by destruct (JsString.trim s).
  - intros Hblank. unfold loadedConfig.
    rewrite lookup_delete_eq, lookup_delete_ne by done.
    destruct (options !! "config") as [[s| | |]|]; try done.
    by rewrite (Hblank s eq_refl).
Qed.

End ConfigFileFacts.

Lemma findConfigFilePath_nearest_witness :
  run (Examples.world Scenes.file_above) (ConfigLoader.findConfigFilePath false)
  = Ok (Some "/home/.denoflare").
Proof.
  apply (findConfigFilePath_nearest (Examples.world Scenes.file_above) false
           "/home/.denoflare").
  exists ["project"; "home"], 1. split; [reflexivity|]. split; [simpl; lia|].
  split; [reflexivity|]. split; [reflexivity|].
  intros i Hi. assert (i = 0) as -> by lia. reflexivity.
Defined.

Lemma findConfigFilePath_none_witness :
  run (Examples.world Examples.bare) (ConfigLoader.findConfigFilePath false) = Ok None.
Proof.
  apply (findConfigFilePath_none (Examples.world Examples.bare) false
           ["project"; "home"] eq_refl).
  intros i Hi. reflexivity.
Defined.

Lemma loadConfigFromFile_errors_witness :
  run (Examples.world Scenes.file_unreadable)
      (ConfigLoader.loadConfigFromFile (H := Examples.cli_deps) "/home/.denoflare")
  = Err (Error "Error loading config (path=/home/.denoflare): Requires read access").
Proof.
  destruct (loadConfigFromFile_errors (H := Examples.cli_deps)
              (Examples.world Scenes.file_unreadable) "/home/.denoflare")
    as (_ & Hread & _).
  exact (Hread (PermissionDenied "Requires read access") eq_refl).
Defined.

Lemma loadConfigFromFile_returns_witness :
  run (Examples.world Scenes.file_above)
      (ConfigLoader.loadConfigFromFile (H := Examples.cli_deps) "/home/.denoflare")
  = Ok (mkConfig None None).
Proof.
  apply (loadConfigFromFile_returns (H := Examples.cli_deps)
           (Examples.world Scenes.file_above) "/home/.denoflare" (mkConfig None None)).
  exists "{}". repeat split.
Defined.

Lemma loadConfig_unreadable_file_witness :
  run (Examples.world Scenes.file_unreadable)
      (ConfigLoader.loadConfig (H := Examples.cli_deps) ∅)
  = Err (Error "Error loading config (path=/home/.denoflare): Requires read access").
Proof.
  assert ((∅ : gmap string JsValue) !! "config" = None) as Hopt
    by (vm_compute; reflexivity).
  apply (loadConfig_unreadable_file (H := Examples.cli_deps)
           (Examples.world Scenes.file_unreadable) ∅ ["project"; "home"] 1
           (PermissionDenied "Requires read access") Hopt eq_refl).
  - simpl. lia.
  - intros i Hi. assert (i = 0) as -> by lia. reflexivity.
  - reflexivity.
  - reflexivity.
Defined.

Lemma loadedConfig_option_witness :
  ConfigLoader.loadedConfig (H := Examples.cli_deps) Scenes.options_config
  = ConfigLoader.loadConfigFromFile (H := Examples.cli_deps) "/etc/denoflare.jsonc".
Proof.
  assert (Scenes.options_config !! "config" = Some (JsStr " /etc/denoflare.jsonc "))
    as Hopt by (vm_compute; reflexivity).
  destruct (loadedConfig_option (H := Examples.cli_deps) Scenes.options_config)
    as [Hgiven _].
  exact (Hgiven _ Hopt ltac:(discriminate)).
Defined.

(** ** The profile of the environment *)

Section EnvFacts.
Context `{CliDeps}.
Import ConfigLoader.

Lemma enhanceWithEnv_run (w : World) (config : Config) :
  run w (enhanceWithEnv config) =
  if Nat.eqb (size (profiles_of config)) 0 then
    match w _ (EnvGet "CF_ACCOUNT_ID") with
    | Ok a =>
        match w _ (EnvGet "CF_API_TOKEN") with
        | Ok t =>
            if Nat.ltb 0 (String.length (JsString.trim (default "" a)))
               && Nat.ltb 0 (String.length (JsString.trim (default "" t)))
            then Ok (mkConfig (config_scripts config)
                       (Some {[ "env" := mkProfile (JsString.trim (default "" a))
                                                   (JsString.trim (default "" t)) None ]}))
            else Ok config
        | Err e => run w (unless_denied config e)
        end
    | Err e => run w (unless_denied config e)
    end
  else Ok config.
Proof.
  unfold enhanceWithEnv. destruct (Nat.eqb (size (profiles_of config)) 0); [|done].
  rewrite run_try_catch, run_bind, run_call.
  destruct (w _ (EnvGet "CF_ACCOUNT_ID")) as [a|e]; [|done].
  rewrite run_bind, run_call.
  destruct (w _ (EnvGet "CF_API_TOKEN")) as [t|e]; [|done].
  rewrite !or_else_empty. by destruct (_ && _).
Qed.

Lemma profiles_of_Some scripts (profiles : gmap string Profile) :
  profiles_of (mkConfig scripts (Some profiles)) = profiles.
Proof. reflexivity. Qed.

(** X7: the profile of the environment needs both variables: when
    [CF_ACCOUNT_ID] or [CF_API_TOKEN] is not set, empty or blank, a loaded
    config without profiles is returned as it is. *)
Theorem loadConfig_env_incomplete (w : World) (options : gmap string JsValue)
    (config : Config) (a t : option string) :
  run w (loadedConfig options) = Ok config ->
  size (profiles_of config) = 0 ->
  w _ (EnvGet "CF_ACCOUNT_ID") = Ok a ->
  w _ (EnvGet "CF_API_TOKEN") = Ok t ->
  JsString.trim (default "" a) = "" \/ JsString.trim (default "" t) = "" ->
  run w (loadConfig options) = Ok config.
Proof.
  intros Hloaded Hsize Ha Ht Hblank. unfold loadConfig.
  rewrite run_bind, Hloaded, enhanceWithEnv_run, Hsize, Ha, Ht. cbn [Nat.eqb].
  destruct Hblank as [-> | ->]; [done|]. by rewrite andb_false_r.
Qed.

(** X8: [loadConfig] returns the loaded config or the loaded config with
    its profiles replaced by the single profile [env]; the scripts are
    those of the loaded config, and the profile [env] comes only in place
    of no profiles, has a non-empty account id and token and no default
    flag. *)
Theorem loadConfig_keeps (w : World) (options : gmap string JsValue)
    (loaded config : Config) :
  run w (loadedConfig options) = Ok loaded ->
  run w (loadConfig options) = Ok config ->
  config_scripts config = config_scripts loaded
  /\ (config = loaded
      \/ (size (profiles_of loaded) = 0
          /\ exists p,
               config_profiles config = Some {[ "env" := p ]}
               /\ profile_default p = None
               /\ profile_accountId p <> ""
               /\ profile_apiToken p <> "")).
Proof.
  intros Hloaded. unfold loadConfig.
  rewrite run_bind, Hloaded, enhanceWithEnv_run.
  destruct (Nat.eqb_spec (size (profiles_of loaded)) 0) as [Hsize|_];
    [|intros [= <-]; by split; [|left]].
  destruct (w _ (EnvGet "CF_ACCOUNT_ID")) as [a|e];
    [|destruct e; try discriminate; intros [= <-]; by split; [|left]].
  destruct (w _ (EnvGet "CF_API_TOKEN")) as [t|e];
    [|destruct e; try discriminate; intros [= <-]; by split; [|left]].
  destruct (Nat.ltb 0 (String.length (JsString.trim (default "" a)))) eqn:Ha;
    [|intros [= <-]; by split; [|left]].
  destruct (Nat.ltb 0 (String.length (JsString.trim (default "" t)))) eqn:Ht;
    [|intros [= <-]; by split; [|left]].
  intros [= <-]. split; [done|]. right. split; [done|].
  eexists. split; [reflexivity|]. cbn [profile_default profile_accountId profile_apiToken].
  split; [done|]. split; intros Hempty; rewrite Hempty in *; discriminate.
Qed.

(** X9: with no profile in the loaded config, both variables set, and no
    option or script that names a profile, [loadConfig] followed by
    [findProfile] gives the credentials of the environment, trimmed. *)
Theorem env_profile_found (w : World) (options : gmap string JsValue)
    (script : option Script) (loaded : Config) (a t accountId apiToken : option string) :
  run w (loadedConfig options) = Ok loaded ->
  size (profiles_of loaded) = 0 ->
  w _ (EnvGet "CF_ACCOUNT_ID") = Ok a ->
  w _ (EnvGet "CF_API_TOKEN") = Ok t ->
  JsString.trim (default "" a) <> "" ->
  JsString.trim (default "" t) <> "" ->
  parseOptionalStringOption "account-id" options = Ok accountId ->
  parseOptionalStringOption "api-token" options = Ok apiToken ->
  apiToken = None \/ apiToken = Some "" ->
  options !! "profile" = None ->
  script ≫= script_profile = None \/ script ≫= script_profile = Some "" ->
  run w (loadConfig options ≫= fun config => findProfile config options script)
  = Ok (Some (mkProfile (JsString.trim (default "" a))
                        (JsString.trim (default "" t)) None)).
Proof.
  intros Hloaded Hsize Ha Ht Haccount Htoken Hacc Htok Hno Hopt Hscript.
  rewrite run_bind. unfold loadConfig.
  rewrite run_bind, Hloaded, enhanceWithEnv_run, Hsize, Ha, Ht. cbn [Nat.eqb].
  rewrite !length_positive by done. cbn [andb].
  rewrite (findProfile_fallback _ _ _ _ _ Hacc Htok Hno Hopt Hscript).
  cbn zeta. rewrite profiles_of_Some, map_to_list_singleton.
  reflexivity.
Qed.

End EnvFacts.

Lemma loadConfig_env_incomplete_witness :
  run (Examples.world Scenes.half_env)
      (ConfigLoader.loadConfig (H := Examples.cli_deps) ∅)
  = Ok (mkConfig None None).
Proof.
  assert (run (Examples.world Scenes.half_env)
              (ConfigLoader.loadedConfig (H := Examples.cli_deps) ∅)
          = Ok (mkConfig None None)) as Hloaded by (vm_compute; reflexivity).
  exact (loadConfig_env_incomplete (H := Examples.cli_deps)
           (Examples.world Scenes.half_env) ∅ (mkConfig None None)
           (Some "acc-1") (Some "   ") Hloaded eq_refl eq_refl eq_refl
           (or_intror eq_refl)).
Defined.

Lemma loadConfig_keeps_witness :
  config_scripts (mkConfig None (Some {[ "env" := mkProfile "acc-1" "tok-1" None ]}))
  = config_scripts (mkConfig None None).
Proof.
  assert (run (Examples.world Examples.with_env)
              (ConfigLoader.loadedConfig (H := Examples.cli_deps) ∅)
          = Ok (mkConfig None None)) as Hloaded by (vm_compute; reflexivity).
  assert (run (Examples.world Examples.with_env)
              (ConfigLoader.loadConfig (H := Examples.cli_deps) ∅)
          = Ok (mkConfig None (Some {[ "env" := mkProfile "acc-1" "tok-1" None ]})))
    as Hconfig by (vm_compute; reflexivity).
  exact (proj1 (loadConfig_keeps (H := Examples.cli_deps)
                  (Examples.world Examples.with_env) ∅ _ _ Hloaded Hconfig)).
Defined.

Lemma env_profile_found_witness :
  run (Examples.world Examples.with_env)
      (ConfigLoader.loadConfig (H := Examples.cli_deps) ∅
       ≫= fun config => ConfigLoader.findProfile (H := Examples.cli_deps) config ∅ None)
  = Ok (Some (mkProfile "acc-1" "tok-1" None)).
Proof.
  assert (run (Examples.world Examples.with_env)
              (ConfigLoader.loadedConfig (H := Examples.cli_deps) ∅)
          = Ok (mkConfig None None)) as Hloaded by (vm_compute; reflexivity).
  assert (parseOptionalStringOption (CliDeps := Examples.cli_deps)
            "account-id" ∅ = Ok None) as Hacc by (vm_compute; reflexivity).
  assert (parseOptionalStringOption (CliDeps := Examples.cli_deps)
            "api-token" ∅ = Ok None) as Htok by (vm_compute; reflexivity).
  assert ((∅ : gmap string JsValue) !! "profile" = None) as Hopt
    by (vm_compute; reflexivity).
  exact (env_profile_found (H := Examples.cli_deps)
           (Examples.world Examples.with_env) ∅ None (mkConfig None None)
           (Some " acc-1 ") (Some "tok-1") None None
           Hloaded eq_refl eq_refl eq_refl ltac:(discriminate) ltac:(discriminate)
           Hacc Htok (or_introl eq_refl) Hopt (or_introl eq_refl)).
Defined.

(** ** More on profile resolution *)

Section ListFacts.
Context {A B : Type}.

Lemma filter_fmap_snd (f : B -> bool) (l : list (A * B)) :
  List.filter f l.*2 = (List.filter (fun x => f x.2) l).*2.
Proof.
  induction l as [|[a b] l IH]; [done|]. cbn [fmap list_fmap List.filter snd].
  rewrite IH. by destruct (f b).
Qed.

Lemma filter_nothing (f : A -> bool) (l : list A) :
  (forall y, y ∈ l -> f y = false) -> List.filter f l = [].
Proof.
  induction l as [|a l IH]; intros Hnone; [done|]. cbn [List.filter].
  rewrite (Hnone a) by left. apply IH. intros y Hy. apply Hnone. by right.
Qed.

Lemma filter_only (f : A -> bool) (l : list A) (x : A) :
  NoDup l -> x ∈ l -> f x = true ->
  (forall y, y ∈ l -> f y = true -> y = x) ->
  List.filter f l = [x].
Proof.
  induction l as [|a l IH]; intros Hnodup Hin Hfx Honly; [by apply elem_of_nil in Hin|].
  apply NoDup_cons in Hnodup as [Hnotin Hnodup]. cbn [List.filter].
  apply elem_of_cons in Hin as [<-|Hin].
  - rewrite Hfx. f_equal. apply filter_nothing. intros y Hy.
    destruct (f y) eqn:Hfy; [|done].
    assert (y = x) as -> by (apply Honly; [by right | done]). done.
  - destruct (f a) eqn:Hfa.
    + assert (a = x) as -> by (apply Honly; [by left | done]). done.
    + apply IH; [done..|]. intros y Hy. apply Honly. by right.
Qed.

Lemma filter_two (f : A -> bool) (l : list A) (x y : A) :
  x ∈ l -> y ∈ l -> x <> y -> f x = true -> f y = true ->
  2 <= length (List.filter f l).
Proof.
  intros Hx Hy Hne Hfx Hfy.
  assert (In x (List.filter f l)) as Hx'.
  { apply filter_In. split; [by apply list_elem_of_In | done]. }
  assert (In y (List.filter f l)) as Hy'.
  { apply filter_In. split; [by apply list_elem_of_In | done]. }
  destruct (List.filter f l) as [|a [|b l']]; simpl in *; [done | | lia].
  destruct Hx' as [<-|[]], Hy' as [<-|[]]. done.
Qed.

End ListFacts.

Section MoreProfileFacts.
Context `{CliDeps}.
Import ConfigLoader.

Lemma locateAccount_run (w : World) (apiToken : string) :
  run w (locateAccount apiToken) =
  match w _ (ListAccounts apiToken) with
  | Ok [] =>
      Err (ErrorCause "Failed locating account-id from api-token"
             (Error "Unable to locate account-id for that api-token"))
  | Ok [a] => Ok (Some (mkProfile (account_id a) apiToken None))
  | Ok listed =>
      Err (ErrorCause "Failed locating account-id from api-token"
             (Error ("Found multiple accounts for that api-token, try again with an explicit --account-id. Accounts: "
                     +:+ JSON_stringify_accounts
                           (map (fun v => mkAccount (account_id v) (account_name v))
                                listed))))
  | Err e => Err (ErrorCause "Failed locating account-id from api-token" e)
  end.
Proof.
  unfold locateAccount. rewrite run_try_catch, run_bind, run_call.
  by destruct (w _ (ListAccounts apiToken)) as [[|a [|b listed]]|e].
Qed.


(** X11: given that the two string options are read, [findProfile]
    returns [undefined] exactly when no api-token, no profile option and no
    script profile is given and the config has no profile. *)
Theorem findProfile_undefined (w : World) (config : Config)
    (options : gmap string JsValue) (script : option Script)
    (accountId apiToken : option string) :
  parseOptionalStringOption "account-id" options = Ok accountId ->
  parseOptionalStringOption "api-token" options = Ok apiToken ->
  run w (findProfile config options script) = Ok None <->
  (apiToken = None \/ apiToken = Some "")
  /\ options !! "profile" = None
  /\ (script ≫= script_profile = None \/ script ≫= script_profile = Some "")
  /\ profiles_of config = ∅.
Proof.
  intros Hacc Htok. split.
  - unfold findProfile. rewrite Hacc, Htok.
    cbn [lift resume mbind Prog_bind bind].
    destruct apiToken as [[|c token]|].
    2: { destruct accountId as [[|? ?]|]; try discriminate;
         rewrite locateAccount_run;
         by destruct (w _ (ListAccounts _)) as [[|a [|b listed]]|e]. }
    all: destruct (options !! "profile") as [[name| | |]|] eqn:Hopt;
      try discriminate;
      try (destruct (negb (isValidProfileName name)); [discriminate|];
           by destruct (profiles_of config !! name)).
    all: destruct (script ≫= script_profile) as [[|c name]|] eqn:Hscript;
      try (destruct (negb (isValidProfileName (String c name))); [discriminate|];
           by destruct (profiles_of config !! String c name)).
    all: cbn zeta;
      destruct ((map_to_list (profiles_of config)).*2) as [|v arr] eqn:Harr;
      [|cbn [length Nat.eqb];
        destruct (List.filter is_default (v :: arr)) as [|? [|? ?]];
        by destruct arr].
    all: intros _; apply fmap_nil_inv, map_to_list_empty_iff in Harr.
    all: repeat split; auto.
  - intros (Hno & Hopt & Hscript & Hempty).
    rewrite (findProfile_fallback _ _ _ _ _ Hacc Htok Hno Hopt Hscript), Hempty.
    by rewrite map_to_list_empty.
Qed.

(** X12: with several profiles of which exactly one is marked default,
    that one is found when no option and no script names a profile. *)
Theorem findProfile_default (config : Config) (options : gmap string JsValue)
    (script : option Script) (accountId apiToken : option string)
    (name : string) (profile : Profile) :
  parseOptionalStringOption "account-id" options = Ok accountId ->
  parseOptionalStringOption "api-token" options = Ok apiToken ->
  apiToken = None \/ apiToken = Some "" ->
  options !! "profile" = None ->
  script ≫= script_profile = None \/ script ≫= script_profile = Some "" ->
  profiles_of config !! name = Some profile ->
  is_default profile = true ->
  (forall other p,
     profiles_of config !! other = Some p -> is_default p = true -> other = name) ->
  findProfile config options script = Ret (Some profile).
Proof.
  intros Hacc Htok Hno Hopt Hscript Hfound Hdefault Honly.
  rewrite (findProfile_fallback _ _ _ _ _ Hacc Htok Hno Hopt Hscript). cbn zeta.
  rewrite filter_fmap_snd.
  rewrite (filter_only (fun x => is_default x.2) _ (name, profile)).
  - cbn [fmap list_fmap snd].
    apply elem_of_map_to_list in Hfound.
    destruct (map_to_list (profiles_of config)); [by apply elem_of_nil in Hfound|].
    done.
  - apply NoDup_map_to_list.
  - by apply elem_of_map_to_list.
  - done.
  - intros [other p] Hin Hp. apply elem_of_map_to_list in Hin.
    assert (other = name) as -> by by apply (Honly other p).
    congruence.
Qed.

(** X13: with two profiles marked default no profile is found: the
    resolution fails and the message counts the profiles and the
    defaults. *)
Theorem findProfile_two_defaults (config : Config) (options : gmap string JsValue)
    (script : option Script) (accountId apiToken : option string)
    (name1 name2 : string) (profile1 profile2 : Profile) :
  parseOptionalStringOption "account-id" options = Ok accountId ->
  parseOptionalStringOption "api-token" options = Ok apiToken ->
  apiToken = None \/ apiToken = Some "" ->
  options !! "profile" = None ->
  script ≫= script_profile = None \/ script ≫= script_profile = Some "" ->
  name1 <> name2 ->
  profiles_of config !! name1 = Some profile1 ->
  profiles_of config !! name2 = Some profile2 ->
  is_default profile1 = true ->
  is_default profile2 = true ->
  exists defaults,
    2 <= defaults
    /\ findProfile config options script =
       Throw (Error ("Unable to find profile, "
                     +:+ JsString.ofNumber (N.of_nat (size (profiles_of config)))
                     +:+ " profiles in config, and "
                     +:+ JsString.ofNumber (N.of_nat defaults)
                     +:+ " marked as default")).
Proof.
  intros Hacc Htok Hno Hopt Hscript Hne Hfound1 Hfound2 Hdefault1 Hdefault2.
  rewrite (findProfile_fallback _ _ _ _ _ Hacc Htok Hno Hopt Hscript). cbn zeta.
  apply elem_of_map_to_list in Hfound1, Hfound2.
  assert (2 <= length (List.filter is_default (map_to_list (profiles_of config)).*2))
    as Htwo.
  { rewrite filter_fmap_snd, length_fmap.
    apply (filter_two _ _ (name1, profile1) (name2, profile2)); [done..|congruence|done|done]. }
  assert (length (List.filter is_default (map_to_list (profiles_of config)).*2)
          <= length (map_to_list (profiles_of config)).*2) as Hle
    by apply filter_length_le.
  rewrite <- length_map_to_list, <- (length_fmap snd).
  exists (length (List.filter is_default (map_to_list (profiles_of config)).*2)).
  split; [done|].
  destruct (List.filter is_default (map_to_list (profiles_of config)).*2)
    as [|d1 [|d2 defaults]]; [simpl in Htwo; lia | simpl in Htwo; lia|].
  destruct ((map_to_list (profiles_of config)).*2) as [|v1 [|v2 arr]];
    [simpl in Hle; lia | simpl in Hle; lia|].
  reflexivity.
Qed.

Lemma resolveString_plain (text : string) :
  JsString.startsWith text "regex:" = false -> resolveString text = Ret text.
Proof.
  unfold JsString.startsWith, resolveString.
  by destruct (JsString.strip_prefix "regex:" text).
Qed.

(** X14: [resolveProfileOpt] is [resolveProfile] with [undefined] in
    place of the error for no profile: one returns a profile exactly when
    the other does, and where [findProfile] finds nothing the first
    returns [undefined] and the second fails with [Unable to find profile,
    no profiles in config]. *)
Theorem resolveProfileOpt_agrees (w : World) (config : Config)
    (options : gmap string JsValue) (script : option Script) :
  (forall p,
     run w (resolveProfileOpt config options script) = Ok (Some p) <->
     run w (resolveProfile config options script) = Ok p)
  /\ (run w (resolveProfileOpt config options script) = Ok None <->
      run w (findProfile config options script) = Ok None)
  /\ (run w (findProfile config options script) = Ok None ->
      run w (resolveProfile config options script) =
      Err (Error "Unable to find profile, no profiles in config"))
  /\ (forall e,
        run w (resolveProfileOpt config options script) = Err e ->
        run w (resolveProfile config options script) = Err e).
Proof.
  unfold resolveProfileOpt, resolveProfile. rewrite !run_bind.
  destruct (run w (findProfile config options script)) as [[profile|]|e].
  - rewrite run_bind.
    destruct (run w (resolveProfileComponents profile)) as [resolved|e];
      cbn [run mret Prog_ret];
      (split; [intros p; split | split; [split | split; [|intros e']]]);
      congruence.
  - cbn [run mret Prog_ret].
    (split; [intros p; split | split; [split | split; [|intros e']]]);
      congruence.
  - (split; [intros p; split | split; [split | split; [|intros e']]]);
      congruence.
Qed.

(** X15: a profile found with an account id and a token that do not
    start with [regex:] is resolved to these two, without reading a file;
    and no resolved profile carries a default flag. *)
Theorem resolveProfile_plain (w : World) (config : Config)
    (options : gmap string JsValue) (script : option Script) :
  (forall profile,
     run w (findProfile config options script) = Ok (Some profile) ->
     JsString.startsWith (profile_accountId profile) "regex:" = false ->
     JsString.startsWith (profile_apiToken profile) "regex:" = false ->
     resolveProfileComponents profile =
       Ret (mkProfile (profile_accountId profile) (profile_apiToken profile) None)
     /\ run w (resolveProfile config options script) =
        Ok (mkProfile (profile_accountId profile) (profile_apiToken profile) None))
  /\ (forall resolved,
        run w (resolveProfile config options script) = Ok resolved ->
        profile_default resolved = None).
Proof.
  split.
  - intros profile Hfound Hacc Htok.
    assert (resolveProfileComponents profile =
            Ret (mkProfile (profile_accountId profile) (profile_apiToken profile) None))
      as Hplain.
    { unfold resolveProfileComponents.
      by rewrite (resolveString_plain _ Hacc), (resolveString_plain _ Htok). }
    split; [done|]. unfold resolveProfile. by rewrite run_bind, Hfound, Hplain.
  - intros resolved. unfold resolveProfile. rewrite run_bind.
    destruct (run w (findProfile config options script)) as [[profile|]|e];
      try discriminate.
    unfold resolveProfileComponents. rewrite run_bind.
    destruct (run w (resolveString (profile_accountId profile))) as [a|e];
      [|discriminate].
    rewrite run_bind.
    destruct (run w (resolveString (profile_apiToken profile))) as [t|e];
      [|discriminate].
    by intros [= <-].
Qed.

End MoreProfileFacts.


Lemma findProfile_undefined_witness :
  run (Examples.world Examples.bare)
      (ConfigLoader.findProfile (H := Examples.cli_deps) (mkConfig None None) ∅ None)
  = Ok None.
Proof.
  assert (parseOptionalStringOption (CliDeps := Examples.cli_deps)
            "account-id" ∅ = Ok None) as Hacc by (vm_compute; reflexivity).
  assert (parseOptionalStringOption (CliDeps := Examples.cli_deps)
            "api-token" ∅ = Ok None) as Htok by (vm_compute; reflexivity).
  assert ((∅ : gmap string JsValue) !! "profile" = None) as Hopt
    by (vm_compute; reflexivity).
  apply (findProfile_undefined (H := Examples.cli_deps) (Examples.world Examples.bare)
           (mkConfig None None) ∅ None None None Hacc Htok).
  split; [by left|]. split; [exact Hopt|]. split; [by left | reflexivity].
Defined.

Lemma findProfile_default_witness :
  ConfigLoader.findProfile (H := Examples.cli_deps) Scenes.config_default ∅ None
  = Ret (Some (mkProfile "acc-b" "tok-b" (Some true))).
Proof.
  assert (parseOptionalStringOption (CliDeps := Examples.cli_deps)
            "account-id" ∅ = Ok None) as Hacc by (vm_compute; reflexivity).
  assert (parseOptionalStringOption (CliDeps := Examples.cli_deps)
            "api-token" ∅ = Ok None) as Htok by (vm_compute; reflexivity).
  assert ((∅ : gmap string JsValue) !! "profile" = None) as Hopt
    by (vm_compute; reflexivity).
  assert (ConfigLoader.profiles_of Scenes.config_default !! "b"
          = Some (mkProfile "acc-b" "tok-b" (Some true))) as Hfound
    by (vm_compute; reflexivity).
  apply (findProfile_default (H := Examples.cli_deps) Scenes.config_default ∅ None
           None None "b" _ Hacc Htok (or_introl eq_refl) Hopt (or_introl eq_refl)
           Hfound eq_refl).
  intros other p Hother Hdefault.
  apply elem_of_map_to_list in Hother. vm_compute in Hother.
  apply list_elem_of_In in Hother.
  destruct Hother as [[= <- <-]|[[= <- <-]|[[= <- <-]|[]]]];
    first [discriminate Hdefault | reflexivity].
Defined.

Lemma findProfile_two_defaults_witness :
  exists defaults,
    2 <= defaults
    /\ ConfigLoader.findProfile (H := Examples.cli_deps) Scenes.config_defaults ∅ None
       = Throw (Error ("Unable to find profile, 2 profiles in config, and "
                       +:+ JsString.ofNumber (N.of_nat defaults)
                       +:+ " marked as default")).
Proof.
  assert (parseOptionalStringOption (CliDeps := Examples.cli_deps)
            "account-id" ∅ = Ok None) as Hacc by (vm_compute; reflexivity).
  assert (parseOptionalStringOption (CliDeps := Examples.cli_deps)
            "api-token" ∅ = Ok None) as Htok by (vm_compute; reflexivity).
  assert ((∅ : gmap string JsValue) !! "profile" = None) as Hopt
    by (vm_compute; reflexivity).
  assert (ConfigLoader.profiles_of Scenes.config_defaults !! "a"
          = Some (mkProfile "acc" "tok" (Some true))) as Ha
    by (vm_compute; reflexivity).
  assert (ConfigLoader.profiles_of Scenes.config_defaults !! "b"
          = Some (mkProfile "acc" "tok" (Some true))) as Hb
    by (vm_compute; reflexivity).
  assert (size (ConfigLoader.profiles_of Scenes.config_defaults) = 2) as Hsize
    by (vm_compute; reflexivity).
  destruct (findProfile_two_defaults (H := Examples.cli_deps) Scenes.config_defaults
              ∅ None None None "a" "b" _ _ Hacc Htok (or_introl eq_refl) Hopt
              (or_introl eq_refl) ltac:(discriminate) Ha Hb eq_refl eq_refl)
    as (defaults & Htwo & Hthrow).
  exists defaults. split; [exact Htwo|]. rewrite Hthrow, Hsize. reflexivity.
Defined.

Lemma resolveProfile_plain_witness :
  run (Examples.world Examples.bare)
      (ConfigLoader.resolveProfile (H := Examples.cli_deps) Scenes.config_default ∅ None)
  = Ok (mkProfile "acc-b" "tok-b" None).
Proof.
  assert (run (Examples.world Examples.bare)
              (ConfigLoader.findProfile (H := Examples.cli_deps)
                 Scenes.config_default ∅ None)
          = Ok (Some (mkProfile "acc-b" "tok-b" (Some true)))) as Hfound
    by (vm_compute; reflexivity).
  destruct (resolveProfile_plain (H := Examples.cli_deps)
              (Examples.world Examples.bare) Scenes.config_default ∅ None)
    as [Hplain _].
  exact (proj2 (Hplain _ Hfound eq_refl eq_refl)).
Defined.

(** ** Strings with a separator of one character *)

Module SeparatorFacts.
Import JsString JsStringFacts.

#[local] Arguments String.append !_ _ / : simpl nomatch.

Lemma includes_char_cons (c d : ascii) (s : string) :
  includes (String d s) (String c "") = false <->
  d <> c /\ includes s (String c "") = false.
Proof.
  rewrite !includes_false. split.
  - intros Hc. split.
    + intros ->. by apply (cut_None _ _ "" s Hc).
    + by apply cut_None_cons in Hc.
  - intros [Hne Hs]. simpl.
    destruct (Ascii.eqb_spec c d) as [->|_]; [done|]. by rewrite Hs.
Qed.

Lemma includes_char_append (c : ascii) (a b : string) :
  includes a (String c "") = false ->
  includes b (String c "") = false ->
  includes (a +:+ b) (String c "") = false.
Proof.
  induction a as [|d a IH]; [done|]. simpl.
  rewrite !includes_char_cons. intros [Hne Ha] Hb. split; [done | by apply IH].
Qed.

(** The first occurrence of a character is where the text before it has
    none. *)
Lemma cut_char (c : ascii) (b a : string) :
  includes b (String c "") = false ->
  cut (String c "") (b +:+ String c a) = Some (b, a).
Proof.
  induction b as [|d b IH]; simpl.
  - intros _. by rewrite Ascii.eqb_refl.
  - rewrite includes_char_cons. intros [Hne Hb].
    destruct (Ascii.eqb_spec c d) as [->|_]; [done|]. by rewrite IH.
Qed.

Lemma split_cons (c : ascii) (s : string) :
  exists piece pieces, split c s = piece :: pieces.
Proof.
  induction s as [|d s (piece & pieces & IH)]; simpl; [by eexists _, _|].
  rewrite IH. destruct (Ascii.eqb d c); by eexists _, _.
Qed.

Lemma split_line (c : ascii) (x rest : string) :
  includes x (String c "") = false ->
  split c (x +:+ String c rest) = x :: split c rest.
Proof.
  induction x as [|d x IH]; simpl.
  - intros _. destruct (split_cons c rest) as (piece & pieces & ->).
    by rewrite Ascii.eqb_refl.
  - rewrite includes_char_cons. intros [Hne Hx]. rewrite (IH Hx).
    by destruct (Ascii.eqb_spec d c).
Qed.

Lemma split_last (c : ascii) (x : string) :
  includes x (String c "") = false -> split c x = [x].
Proof.
  induction x as [|d x IH]; simpl; [done|].
  rewrite includes_char_cons. intros [Hne Hx]. rewrite (IH Hx).
  by destruct (Ascii.eqb_spec d c).
Qed.

Lemma endsWith_append (x s : string) : endsWith (x +:+ s) s = true.
Proof.
  induction x as [|d x IH]; simpl.
  - destruct s; simpl; [done|]. by rewrite Ascii.eqb_refl, String.eqb_refl.
  - rewrite IH. apply orb_true_r.
Qed.

End SeparatorFacts.

(** ** Credentials from a file *)

Section SecretFacts.
Context `{CliDeps}.
Import ConfigLoader.

(** X16: a string [regex:<rest>] without a colon in [<rest>] is resolved
    to itself; with a colon the file named by the text before the first
    colon is read: a failing read fails the resolution with the error of
    the read, and a file without a match of the pattern (taken with the
    flag [s] when it starts with [(?s)]) fails it with [resolveString:
    Failed to resolve <string>]. *)
Theorem resolveString_regex (w : World) :
  (forall rest,
     JsString.includes rest ":" = false ->
     resolveString ("regex:" +:+ rest) = Ret ("regex:" +:+ rest))
  /\ (forall path pattern e,
        JsString.includes path ":" = false ->
        w _ (ReadTextFile path) = Err e ->
        run w (resolveString ("regex:" +:+ path +:+ ":" +:+ pattern)) = Err e)
  /\ (forall path pattern txt,
        JsString.includes path ":" = false ->
        w _ (ReadTextFile path) = Ok txt ->
        JsString.startsWith pattern "(?s)" = false ->
        RegExp_match1 pattern None txt = Ok None ->
        run w (resolveString ("regex:" +:+ path +:+ ":" +:+ pattern)) =
        Err (Error ("resolveString: Failed to resolve regex:" +:+ path +:+ ":"
                    +:+ pattern)))
  /\ (forall path pattern txt,
        JsString.includes path ":" = false ->
        w _ (ReadTextFile path) = Ok txt ->
        RegExp_match1 pattern (Some "s") txt = Ok None ->
        run w (resolveString ("regex:" +:+ path +:+ ":(?s)" +:+ pattern)) =
        Err (Error ("resolveString: Failed to resolve regex:" +:+ path +:+ ":(?s)"
                    +:+ pattern))).
Proof.
  split; [|split; [|split]].
  - intros rest Hrest. unfold resolveString.
    rewrite JsStringFacts.strip_prefix_append.
    apply JsStringFacts.includes_false in Hrest. by rewrite Hrest.
  - intros path pattern e Hpath Hread. unfold resolveString.
    rewrite JsStringFacts.strip_prefix_append.
    change (path +:+ ":" +:+ pattern) with (path +:+ String ":" pattern).
    rewrite (SeparatorFacts.cut_char _ _ _ Hpath).
    by rewrite run_bind, run_call, Hread.
  - intros path pattern txt Hpath Hread Hplain Hmatch. unfold resolveString.
    rewrite JsStringFacts.strip_prefix_append.
    change (path +:+ ":" +:+ pattern) with (path +:+ String ":" pattern).
    rewrite (SeparatorFacts.cut_char _ _ _ Hpath).
    rewrite run_bind, run_call, Hread.
    unfold JsString.startsWith in Hplain.
    destruct (JsString.strip_prefix "(?s)" pattern); [discriminate|].
    by rewrite run_bind, run_lift, Hmatch.
  - intros path pattern txt Hpath Hread Hmatch. unfold resolveString.
    rewrite JsStringFacts.strip_prefix_append.
    change (path +:+ ":(?s)" +:+ pattern) with (path +:+ String ":" ("(?s)" +:+ pattern)).
    rewrite (SeparatorFacts.cut_char _ _ _ Hpath).
    rewrite run_bind, run_call, Hread, JsStringFacts.strip_prefix_append.
    by rewrite run_bind, run_lift, Hmatch.
Qed.

End SecretFacts.

Section BindingsFacts.
Import ConfigLoader.

(** X17: [resolveBinding] returns the binding as it is, and calls
    nothing, for a text without [${localPort}] and [${pushId}], for a
    secret that does not start with [aws:], and for every binding that is
    neither a text nor a secret. *)
Theorem resolveBinding_unchanged (binding : Binding) (localPort : option N)
    (pushId : option string) :
  match binding with
  | TextBinding value =>
      JsString.includes value LOCAL_PORT = false
      /\ JsString.includes value PUSH_ID = false
  | SecretBinding secret => JsString.startsWith secret "aws:" = false
  | OtherBinding _ _ => True
  end ->
  resolveBinding binding localPort pushId = Ret binding.
Proof.
  destruct binding as [value|secret|kind payload]; [| |done].
  - intros [Hport Hpush]. unfold resolveBinding.
    destruct localPort as [port|];
      [rewrite (JsStringFacts.replace_absent _ _ _ Hport) | rewrite Hport];
      cbn [mbind mret Prog_bind Prog_ret bind];
      (destruct pushId as [id|];
       [rewrite (JsStringFacts.replace_absent _ _ _ Hpush) | rewrite Hpush]);
      done.
  - intros Hplain. unfold resolveBinding, aws_profile.
    unfold JsString.startsWith in Hplain.
    by destruct (JsString.strip_prefix "aws:" secret).
Qed.

Lemma resolveBindings_entries_spec (w : World) (entries : list (string * Binding))
    (localPort : option N) (pushId : option string) (rt rt' : gmap string Binding) :
  NoDup entries.*1 ->
  run w (resolveBindings_entries entries localPort pushId rt) = Ok rt' ->
  forall name,
    (forall binding, (name, binding) ∈ entries ->
       exists resolved,
         run w (resolveBinding binding localPort pushId) = Ok resolved
         /\ rt' !! name = Some resolved)
    /\ (name ∉ entries.*1 -> rt' !! name = rt !! name).
Proof.
  revert rt. induction entries as [|[n0 b0] rest IH]; intros rt Hnodup Hrun name.
  - injection Hrun as <-. split; [intros binding Hin; by apply elem_of_nil in Hin | done].
  - cbn [fmap list_fmap fst] in Hnodup. apply NoDup_cons in Hnodup as [Hfresh Hnodup].
    cbn [resolveBindings_entries] in Hrun. rewrite run_bind in Hrun.
    destruct (run w (resolveBinding b0 localPort pushId)) as [r0|e] eqn:Hfirst;
      [|discriminate].
    destruct (IH _ Hnodup Hrun name) as [Hin Hout]. split.
    + intros binding Hhere. apply elem_of_cons in Hhere as [[= -> ->]|Hhere].
      * exists r0. split; [done|]. rewrite (Hout Hfresh). apply lookup_insert_eq.
      * by apply Hin.
    + intros Hnot. cbn [fmap list_fmap fst] in Hnot.
      apply not_elem_of_cons in Hnot as [Hne Hnot].
      rewrite (Hout Hnot). by apply lookup_insert_ne.
Qed.

Lemma resolveBindings_entries_total (w : World) (entries : list (string * Binding))
    (localPort : option N) (pushId : option string) (rt : gmap string Binding) :
  (forall name binding, (name, binding) ∈ entries ->
     exists resolved, run w (resolveBinding binding localPort pushId) = Ok resolved) ->
  exists rt', run w (resolveBindings_entries entries localPort pushId rt) = Ok rt'.
Proof.
  revert rt. induction entries as [|[n0 b0] rest IH]; intros rt Hall.
  - by exists rt.
  - destruct (Hall n0 b0) as [r0 Hfirst]; [left|].
    cbn [resolveBindings_entries]. rewrite run_bind, Hfirst.
    apply IH. intros name binding Hin. apply (Hall name). by right.
Qed.

(** X18: when [resolveBindings] returns, the result has the names of
    the bindings and no others, and under each name the resolution of the
    binding of that name. *)
Theorem resolveBindings_pointwise (w : World) (bindings : gmap string Binding)
    (localPort : option N) (pushId : option string) (rt : gmap string Binding) :
  run w (resolveBindings bindings localPort pushId) = Ok rt ->
  forall name,
    match bindings !! name with
    | Some binding =>
        exists resolved,
          run w (resolveBinding binding localPort pushId) = Ok resolved
          /\ rt !! name = Some resolved
    | None => rt !! name = None
    end.
Proof.
  intros Hrun name. unfold resolveBindings in Hrun.
  destruct (resolveBindings_entries_spec w _ _ _ _ _
              (NoDup_fst_map_to_list bindings) Hrun name) as [Hin Hout].
  destruct (bindings !! name) as [binding|] eqn:Hname.
  - apply Hin. by apply elem_of_map_to_list.
  - rewrite Hout; [done|].
    intros Hfst. apply list_elem_of_fmap in Hfst as ([name' binding] & -> & Hin').
    apply elem_of_map_to_list in Hin'. cbn [fst] in Hname. congruence.
Qed.

(** X19: [resolveBindings] returns exactly when every binding resolves;
    one binding that fails makes the whole fail. *)
Theorem resolveBindings_all_or_nothing (w : World) (bindings : gmap string Binding)
    (localPort : option N) (pushId : option string) :
  (exists rt, run w (resolveBindings bindings localPort pushId) = Ok rt) <->
  forall name binding,
    bindings !! name = Some binding ->
    exists resolved, run w (resolveBinding binding localPort pushId) = Ok resolved.
Proof.
  split.
  - intros [rt Hrun] name binding Hname.
    pose proof (resolveBindings_entries_spec w _ _ _ _ _
                  (NoDup_fst_map_to_list bindings) Hrun name) as [Hin _].
    destruct (Hin binding) as (resolved & Hresolved & _);
      [by apply elem_of_map_to_list | by exists resolved].
  - intros Hall. apply resolveBindings_entries_total.
    intros name binding Hin. apply (Hall name). by apply elem_of_map_to_list.
Qed.

End BindingsFacts.

Lemma resolveString_regex_witness :
  run (Examples.world Scenes.file_above)
      (ConfigLoader.resolveString (H := Examples.cli_deps)
         "regex:/home/.denoflare:token=(.*)")
  = Err (Error "resolveString: Failed to resolve regex:/home/.denoflare:token=(.*)").
Proof.
  destruct (resolveString_regex (H := Examples.cli_deps)
              (Examples.world Scenes.file_above)) as (_ & _ & Hnomatch & _).
  exact (Hnomatch "/home/.denoflare" "token=(.*)" "{}" eq_refl eq_refl eq_refl eq_refl).
Defined.

Lemma resolveBinding_unchanged_witness :
  ConfigLoader.resolveBinding (SecretBinding "s3cr3t") None None
  = Ret (SecretBinding "s3cr3t").
Proof.
  exact (resolveBinding_unchanged (SecretBinding "s3cr3t") None None eq_refl).
Defined.

Lemma resolveBindings_pointwise_witness :
  exists resolved,
    run (Examples.world Examples.bare)
        (ConfigLoader.resolveBinding (TextBinding "http://localhost:${localPort}")
           (Some 8080%N) None)
    = Ok resolved
    /\ ({[ "origin" := TextBinding "http://localhost:8080";
           "mode" := OtherBinding "kvNamespace" "ns-1" ]} : gmap string Binding)
         !! "origin" = Some resolved.
Proof.
  assert (run (Examples.world Examples.bare)
              (ConfigLoader.resolveBindings Scenes.bindings_two (Some 8080%N) None)
          = Ok ({[ "origin" := TextBinding "http://localhost:8080";
                   "mode" := OtherBinding "kvNamespace" "ns-1" ]}
                : gmap string Binding)) as Hrun by (vm_compute; reflexivity).
  assert (Scenes.bindings_two !! "origin"
          = Some (TextBinding "http://localhost:${localPort}")) as Hname
    by (vm_compute; reflexivity).
  pose proof (resolveBindings_pointwise (Examples.world Examples.bare)
                Scenes.bindings_two (Some 8080%N) None _ Hrun "origin") as Hpoint.
  rewrite Hname in Hpoint. exact Hpoint.
Defined.

Lemma resolveBindings_all_or_nothing_witness :
  exists rt,
    run (Examples.world Examples.bare)
        (ConfigLoader.resolveBindings Scenes.bindings_two (Some 8080%N) None)
    = Ok rt.
Proof.
  apply (resolveBindings_all_or_nothing (Examples.world Examples.bare)
           Scenes.bindings_two (Some 8080%N) None).
  intros name binding Hname.
  apply elem_of_map_to_list in Hname. vm_compute in Hname.
  apply list_elem_of_In in Hname.
  destruct Hname as [[= <- <-]|[[= <- <-]|[]]]; eexists; vm_compute; reflexivity.
Defined.

(** ** The credentials file *)

Section AwsFacts.
Import ConfigLoader.

Lemma credentials_outside (profileLine : string) (lines : list string)
    (atts : gmap string string) :
  (forall line, In line lines -> line <> profileLine) ->
  fold_left (credentials_line profileLine) lines (false, atts) = (false, atts).
Proof.
  induction lines as [|line lines IH]; intros Hother; [done|].
  cbn [fold_left]. unfold credentials_line at 2.
  destruct (JsString.startsWith line "[" && JsString.endsWith line "]").
  - destruct (String.eqb_spec line profileLine) as [->|_].
    + by destruct (Hother profileLine (or_introl eq_refl)).
    + apply IH. intros l Hl. apply Hother. by right.
  - apply IH. intros l Hl. apply Hother. by right.
Qed.

(** X20: when no line of the credentials file is [[<profile>]], loading
    the credentials of the profile fails with [No aws credentials found for
    profile <profile>], whatever the other sections hold. *)
Theorem loadAwsCredentials_no_section (w : World) (profile : string)
    (home : option string) (txt : string) :
  w _ (EnvGet "HOME") = Ok home ->
  w _ (ReadTextFile (default "undefined" home +:+ "/.aws/credentials")) = Ok txt ->
  (forall line, In line (JsString.split "010" txt) -> line <> "[" +:+ profile +:+ "]") ->
  run w (loadAwsCredentialsForProfile profile) =
  Err (Error ("No aws credentials found for profile " +:+ profile)).
Proof.
  intros Hhome Hread Hlines. unfold loadAwsCredentialsForProfile.
  rewrite run_bind, run_call, Hhome, run_bind, run_call, Hread.
  by rewrite (credentials_outside _ _ ∅ Hlines).
Qed.

Lemma isLineTerminator_char (c : ascii) :
  isLineTerminator c = true -> c = "010"%char \/ c = "013"%char.
Proof.
  destruct c as [[] [] [] [] [] [] [] []]; cbv; intros Hc;
    first [discriminate Hc | by left | by right].
Qed.

Lemma no_line_terminator (s : string) :
  JsString.includes s LF = false ->
  JsString.includes s CR = false ->
  existsb isLineTerminator (list_ascii_of_string s) = false.
Proof.
  unfold LF, CR. induction s as [|c s IH]; [done|].
  rewrite !SeparatorFacts.includes_char_cons. intros [Hlf Hs] [Hcr Hs'].
  cbn [list_ascii_of_string existsb]. rewrite (IH Hs Hs'), orb_false_r.
  destruct (isLineTerminator c) eqn:Hc; [|done].
  by destruct (isLineTerminator_char c Hc).
Qed.

Lemma credentials_text_lines (profile id secret : string) :
  credentials_text profile id secret =
  ("[" +:+ profile +:+ "]")
  +:+ String "010" (("aws_access_key_id = " +:+ id)
                    +:+ String "010" ("aws_secret_access_key = " +:+ secret)).
Proof.
  unfold credentials_text, LF.
  rewrite !JsStringFacts.append_assoc. reflexivity.
Qed.

Lemma credentials_line_header (profile : string) (state : bool * gmap string string) :
  credentials_line ("[" +:+ profile +:+ "]") state ("[" +:+ profile +:+ "]")
  = (true, state.2).
Proof.
  destruct state as [inProfile atts]. unfold credentials_line.
  assert (JsString.endsWith ("[" +:+ profile +:+ "]") "]" = true) as ->.
  { rewrite <- JsStringFacts.append_assoc. apply SeparatorFacts.endsWith_append. }
  change (JsString.startsWith ("[" +:+ profile +:+ "]") "[") with true.
  by rewrite String.eqb_refl.
Qed.

Lemma credentials_line_id (profileLine id : string) (atts : gmap string string) :
  credentials_line profileLine (true, atts) ("aws_access_key_id = " +:+ id)
  = (true, <[ "aws_access_key_id" := JsString.trim id ]> atts).
Proof. reflexivity. Qed.

Lemma credentials_line_secret (profileLine secret : string) (atts : gmap string string) :
  credentials_line profileLine (true, atts) ("aws_secret_access_key = " +:+ secret)
  = (true, <[ "aws_secret_access_key" := JsString.trim secret ]> atts).
Proof. reflexivity. Qed.

(** X21: a credentials file written as a section [[<profile>]] with the
    lines [aws_access_key_id = <id>] and [aws_secret_access_key = <secret>]
    is read back as the id and the secret, trimmed; a secret binding
    [aws:<profile>] is resolved to the two joined by a colon. *)
Theorem loadAwsCredentials_section (w : World) (profile id secret : string)
    (home : option string) :
  w _ (EnvGet "HOME") = Ok home ->
  w _ (ReadTextFile (default "undefined" home +:+ "/.aws/credentials"))
    = Ok (credentials_text profile id secret) ->
  JsString.includes profile LF = false ->
  JsString.includes id LF = false ->
  JsString.includes secret LF = false ->
  run w (loadAwsCredentialsForProfile profile) =
    Ok (mkAwsCredentials (JsString.trim id) (JsString.trim secret))
  /\ (JsString.includes profile CR = false ->
      forall localPort pushId,
        run w (resolveBinding (SecretBinding ("aws:" +:+ profile)) localPort pushId) =
        Ok (SecretBinding (JsString.trim id +:+ ":" +:+ JsString.trim secret))).
Proof.
  intros Hhome Hread Hprofile Hid Hsecret.
  assert (run w (loadAwsCredentialsForProfile profile) =
          Ok (mkAwsCredentials (JsString.trim id) (JsString.trim secret))) as Hload.
  { unfold loadAwsCredentialsForProfile.
    rewrite run_bind, run_call, Hhome, run_bind, run_call, Hread.
    unfold LF in *.
    assert (JsString.includes ("[" +:+ profile +:+ "]") (String "010" "") = false)
      as Hhead.
    { apply (SeparatorFacts.includes_char_append _ "["); [done|].
      by apply SeparatorFacts.includes_char_append. }
    assert (JsString.includes ("aws_access_key_id = " +:+ id) (String "010" "") = false)
      as Hline.
    { by apply SeparatorFacts.includes_char_append. }
    assert (JsString.includes ("aws_secret_access_key = " +:+ secret) (String "010" "")
            = false) as Hlast.
    { by apply SeparatorFacts.includes_char_append. }
    rewrite credentials_text_lines.
    rewrite (SeparatorFacts.split_line _ _ _ Hhead),
      (SeparatorFacts.split_line _ _ _ Hline), (SeparatorFacts.split_last _ _ Hlast).
    cbn [fold_left].
    rewrite credentials_line_header, credentials_line_id, credentials_line_secret.
    rewrite lookup_insert_ne by done.
    by rewrite !lookup_insert_eq. }
  split; [done|].
  intros Hcr localPort pushId. unfold resolveBinding, aws_profile.
  rewrite JsStringFacts.strip_prefix_append, (no_line_terminator _ Hprofile Hcr).
  by rewrite run_bind, Hload.
Qed.

End AwsFacts.

Lemma loadAwsCredentials_no_section_witness :
  run (Examples.world Scenes.aws_home)
      (ConfigLoader.loadAwsCredentialsForProfile "prod")
  = Err (Error "No aws credentials found for profile prod").
Proof.
  apply (loadAwsCredentials_no_section (Examples.world Scenes.aws_home) "prod"
           (Some "/home/me") (credentials_text "dev" "AKIA1" " s3cr3t ")
           eq_refl eq_refl).
  intros line Hline. vm_compute in Hline.
  destruct Hline as [<-|[<-|[<-|[]]]]; discriminate.
Defined.

Lemma loadAwsCredentials_section_witness :
  run (Examples.world Scenes.aws_home)
      (ConfigLoader.loadAwsCredentialsForProfile "dev")
  = Ok (mkAwsCredentials "AKIA1" "s3cr3t").
Proof.
  exact (proj1 (loadAwsCredentials_section (Examples.world Scenes.aws_home)
                  "dev" "AKIA1" " s3cr3t " (Some "/home/me")
                  eq_refl eq_refl eq_refl eq_refl eq_refl)).
Defined.

(** ** The routes of the worker *)

Section RouteFacts.
Context `{WorkerDeps}.

(** X22: whatever the request, the handler calls upstream at most once,
    and only [TAILWEB_APP_DATA] or a URL whose origin is
    [https://api.cloudflare.com]; to the latter it sends the method of the
    request, no body, and no header whose name starts with [cf-]. *)
Theorem fetch_upstream (request : Request) :
  (exists response, TailwebWorker.fetch request = Ret response)
  \/ (exists e, TailwebWorker.fetch request = Throw e)
  \/ (exists k,
        TailwebWorker.fetch request = Call (HttpFetch TAILWEB_APP_DATA None) k
        /\ forall answer, (exists response, k answer = Ret response)
                          \/ (exists e, k answer = Throw e))
  \/ (exists target init fetchUrl,
        TailwebWorker.fetch request = call (HttpFetch target (Some init))
        /\ new_URL target = Ok fetchUrl
        /\ url_origin fetchUrl = "https://api.cloudflare.com"
        /\ init_method init = req_method request
        /\ init_body init = None
        /\ forall name value,
             In (name, value) (init_headers init) ->
             JsString.startsWith name "cf-" = false).
Proof.
  unfold TailwebWorker.fetch.
  destruct (new_URL (req_url request)) as [url|e];
    cbn [lift resume mbind Prog_bind bind]; [|right; left; by eexists].
  destruct (String.eqb (url_pathname url) "/"); [left; by eexists|].
  destruct (String.eqb (url_pathname url) "/app.js").
  { right. right. left. eexists. split; [reflexivity|].
    intros [response|e]; [left | right]; by eexists. }
  destruct (JsString.startsWith (url_pathname url) "/fetch/"); [|left; by eexists].
  destruct (new_URL _) as [fetchUrl|e] eqn:Htarget;
    cbn [lift resume mbind Prog_bind bind]; [|right; left; by eexists].
  destruct (String.eqb_spec (url_origin fetchUrl) "https://api.cloudflare.com")
    as [Horigin|_]; [|right; left; by eexists].
  right. right. right. eexists _, _, fetchUrl.
  split; [reflexivity|]. split; [exact Htarget|]. split; [exact Horigin|].
  split; [done|]. split; [done|].
  intros name value Hin. cbn [init_headers] in Hin.
  apply filter_In in Hin as [_ Hkept]. by apply negb_true_iff in Hkept.
Qed.

(** X23: the routes beside [/fetch/]: [/] answers the page with status
    200; [/app.js] answers status 200 with the body of the upstream answer,
    whatever the status of that answer, and fails when the upstream call
    fails; every other path outside [/fetch/] answers [hello] with the
    value of the header [cf-connecting-ip], or with [null] without it. *)
Theorem fetch_routes (w : World) (request : Request) (url : URL) :
  new_URL (req_url request) = Ok url ->
  (url_pathname url = "/" ->
     TailwebWorker.fetch request =
     Ret (mkResponse 200 [("Content-Type", "text/html; charset=utf-8")]
            (TailwebWorker.computeHtml url)))
  /\ (url_pathname url = "/app.js" ->
      run w (TailwebWorker.fetch request) =
      match w _ (HttpFetch TAILWEB_APP_DATA None) with
      | Ok upstream =>
          Ok (mkResponse 200 [("Content-Type", "text/javascript; charset=utf-8")]
                (resp_body upstream))
      | Err e => Err e
      end)
  /\ (url_pathname url <> "/" -> url_pathname url <> "/app.js" ->
      JsString.startsWith (url_pathname url) "/fetch/" = false ->
      TailwebWorker.fetch request =
      Ret (mkResponse 200 []
             ("hello " +:+ default "null"
                             (Headers_get (req_headers request) "cf-connecting-ip")))).
Proof.
  intros Hurl. unfold TailwebWorker.fetch. rewrite Hurl.
  cbn [lift resume mbind Prog_bind bind]. split; [|split].
  - by intros ->.
  - intros ->. change (String.eqb "/app.js" "/") with false. cbv iota.
    change (String.eqb "/app.js" "/app.js") with true. cbv iota.
    rewrite run_bind, run_call. by destruct (w _ (HttpFetch TAILWEB_APP_DATA None)).
  - intros Hroot Happ Hfetch.
    destruct (String.eqb_spec (url_pathname url) "/"); [done|].
    destruct (String.eqb_spec (url_pathname url) "/app.js"); [done|].
    by rewrite Hfetch.
Qed.

End RouteFacts.

Lemma fetch_routes_witness :
  run (Examples.world Examples.bare)
      (TailwebWorker.fetch (H := Examples.worker_deps)
         (mkRequest "GET" "https://tail.example/app.js" []))
  = Ok (mkResponse 200 [("Content-Type", "text/javascript; charset=utf-8")] "").
Proof.
  destruct (fetch_routes (H := Examples.worker_deps) (Examples.world Examples.bare)
              (mkRequest "GET" "https://tail.example/app.js" [])
              (mkURL "https://tail.example/app.js" "https://tail.example" "/app.js")
              eq_refl) as (_ & Happ & _).
  exact (Happ eq_refl).
Defined.

(** ** Reading a key with and without its metadata *)

Section KVReadFacts.
Context `{KVDeps}.
Import ApiKVNamespace.

(** X24: [getWithMetadata] returns the value [get] returns: when the
    first returns, the second returns its value (or [null] for [null]); and
    when [get] returns a value and the metadata of the key is read,
    [getWithMetadata] returns this value with the metadata. *)
Theorem getWithMetadata_agrees (w : World) this key opts :
  (forall answer,
     run w (getWithMetadata this key opts) = Ok answer ->
     run w (get this key opts) = Ok (value <$> answer))
  /\ (forall v meta,
        run w (get this key opts) = Ok (Some v) ->
        w _ (GetKeyMetadata (mkKeyRef (accountId this) (namespaceId this) key
                               (apiToken this))) = Ok meta ->
        run w (getWithMetadata this key opts)
        = Ok (Some (mkValueAndMetadata v meta))).
Proof.
  unfold get, getWithMetadata. rewrite !run_bind, !run_call.
  destruct (w _ (GetKeyValue _)) as [[bytes|]|e].
  - rewrite run_bind, run_call. split.
    + intros answer.
      destruct (w _ (GetKeyMetadata _)) as [meta|e]; [|discriminate].
      destruct (type_is opts "arrayBuffer"); [by intros [= <-]|].
      destruct (type_is opts "json"); [|discriminate].
      rewrite !run_bind, !run_lift.
      destruct (JSON_parse (Bytes_utf8 bytes)); [by intros [= <-] | discriminate].
    + intros v meta Hget ->.
      destruct (type_is opts "arrayBuffer"); [by injection Hget as <-|].
      destruct (type_is opts "json"); [|discriminate].
      rewrite !run_bind, !run_lift in *.
      destruct (JSON_parse (Bytes_utf8 bytes)); [by injection Hget as <- | discriminate].
  - split; [by intros answer [= <-] | discriminate].
  - split; discriminate.
Qed.

End KVReadFacts.

Lemma getWithMetadata_agrees_witness :
  run (Examples.world Scenes.with_value)
      (ApiKVNamespace.getWithMetadata (H := Examples.kv_deps) Examples.namespace "k"
         (Some (mkKVGetOptions (Some "arrayBuffer") None)))
  = Ok (Some (ApiKVNamespace.mkValueAndMetadata (ApiKVNamespace.ArrayBuffer []) None)).
Proof.
  destruct (getWithMetadata_agrees (H := Examples.kv_deps)
              (Examples.world Scenes.with_value) Examples.namespace "k"
              (Some (mkKVGetOptions (Some "arrayBuffer") None))) as [_ Hvalue].
  exact (Hvalue _ None eq_refl eq_refl).
Defined.
